(** * NASCHAIN, nsga-net/search/train_search.py: the single-genome evaluation harness

    A shallow embedding of [main], [train] and [infer].

    Conventions of the embedding.
    - Python [int] is [Z].
    - Python [float] is [pyfloat]: an exact rational, or one of the three
      non-finite values.  Rounding and overflow of binary64 are not modelled;
      what is modelled is the arithmetic on values, the propagation of
      [inf]/[nan] and the [ZeroDivisionError] of Python's true division.
    - A raised exception is [Err e], where [e] records the exception class and
      its message; a normal return is [Ok v].
    - The collaborators that are not in this file of the repository (torch,
      the decoders, the model classes, the dataset, the file system) are the
      fields of an environment record [Env]; the code of [main], [train] and
      [infer] is translated statement by statement on top of them. *)

From Stdlib Require Import ZArith QArith Qround Qreduction List Ascii String Bool Lia Lra.
From Stdlib Require Import Reals Permutation.
Import ListNotations.
Set Warnings "-register-all".

Local Open Scope string_scope.
Local Open Scope list_scope.
Local Open Scope Z_scope.

(* ================================================================== *)
(** ** Exceptions and the error monad *)

Record exn := mkExn { exn_class : string; exn_msg : string }.

Definition TypeError (msg : string) : exn := mkExn "TypeError" msg.
Definition KeyError (key : string) : exn := mkExn "KeyError" key.
Definition NameError (msg : string) : exn := mkExn "NameError" msg.
Definition OSError (msg : string) : exn := mkExn "OSError" msg.
Definition AttributeError (msg : string) : exn := mkExn "AttributeError" msg.
Definition ZeroDivisionError : exn := mkExn "ZeroDivisionError" "division by zero".

Inductive result (A : Type) : Type :=
| Ok (a : A)
| Err (e : exn).
Arguments Ok {A} a.
Arguments Err {A} e.

Definition bind {A B : Type} (r : result A) (k : A -> result B) : result B :=
  match r with
  | Ok a => k a
  | Err e => Err e
  end.

Declare Scope result_scope.
Delimit Scope result_scope with result.
Notation "x <- r ;; k" := (bind r (fun x => k))
  (at level 100, r at next level, right associativity) : result_scope.
Notation "' p <- r ;; k" := (bind r (fun p => k))
  (at level 100, p pattern, r at next level, right associativity) : result_scope.

(** [raises cls r]: the call [r] ended with an exception of class [cls]. *)
Definition raises {A : Type} (cls : string) (r : result A) : Prop :=
  match r with
  | Ok _ => False
  | Err e => exn_class e = cls
  end.

Definition is_ok {A : Type} (r : result A) : bool :=
  match r with Ok _ => true | Err _ => false end.

(* ================================================================== *)
(** ** Python floats *)

Inductive pyfloat : Type :=
| Fin (q : Q)
| PInf
| NInf
| NaN.

Definition of_int (z : Z) : pyfloat := Fin (inject_Z z).

Definition is_finite (x : pyfloat) : bool :=
  match x with Fin _ => true | _ => false end.

(** Sign of a rational, read off its numerator. *)
Definition Qsign (q : Q) : comparison :=
  match Qnum q with
  | Z0 => Eq
  | Zpos _ => Gt
  | Zneg _ => Lt
  end.

(** [x + y] *)
Definition fadd (x y : pyfloat) : pyfloat :=
  match x, y with
  | NaN, _ | _, NaN => NaN
  | Fin a, Fin b => Fin (Qred (a + b))
  | PInf, NInf | NInf, PInf => NaN
  | PInf, _ | _, PInf => PInf
  | NInf, _ | _, NInf => NInf
  end.

(** An infinity times a number of sign [s]. *)
Definition inf_times (pos : bool) (s : comparison) : pyfloat :=
  match s with
  | Eq => NaN
  | Gt => if pos then PInf else NInf
  | Lt => if pos then NInf else PInf
  end.

(** [x * y] *)
Definition fmul (x y : pyfloat) : pyfloat :=
  match x, y with
  | NaN, _ | _, NaN => NaN
  | Fin a, Fin b => Fin (Qred (a * b))
  | Fin a, PInf | PInf, Fin a => inf_times true (Qsign a)
  | Fin a, NInf | NInf, Fin a => inf_times false (Qsign a)
  | PInf, PInf | NInf, NInf => PInf
  | PInf, NInf | NInf, PInf => NInf
  end.

(** [x / y] on Python floats: a zero divisor raises, whatever [x] is. *)
Definition fdiv (x y : pyfloat) : result pyfloat :=
  match y with
  | NaN => Ok NaN
  | Fin b =>
      match Qsign b with
      | Eq => Err ZeroDivisionError
      | s =>
          match x with
          | Fin a => Ok (Fin (Qred (a / b)))
          | PInf => Ok (inf_times true s)
          | NInf => Ok (inf_times false s)
          | NaN => Ok NaN
          end
      end
  | PInf | NInf =>
      match x with
      | Fin _ => Ok (Fin 0)
      | _ => Ok NaN
      end
  end.

(** [np.round(x, decimals)]: round half to even at the given decimal place. *)
Definition round_half_even (q : Q) : Z :=
  let n := Qfloor q in
  match Qcompare (q - inject_Z n) (1 # 2) with
  | Lt => n
  | Gt => n + 1
  | Eq => if Z.even n then n else n + 1
  end.

Definition np_round (x : pyfloat) (decimals : nat) : pyfloat :=
  match x with
  | Fin q =>
      let s := inject_Z (10 ^ Z.of_nat decimals) in
      Fin (Qred (inject_Z (round_half_even (q * s)) / s))
  | other => other
  end.

(* ================================================================== *)
(** ** Python values held in the [params] dictionary *)

Inductive pyvalue : Type :=
| VBool (b : bool)
| VInt (z : Z)
| VFloat (f : pyfloat).

Definition dict : Type := list (string * pyvalue).

(** [d[key]] *)
Fixpoint dict_get (d : dict) (key : string) : result pyvalue :=
  match d with
  | [] => Err (KeyError key)
  | (k, v) :: d' => if String.eqb k key then Ok v else dict_get d' key
  end.

(** Truth value of [v] in an [if]. *)
Definition truthy (v : pyvalue) : bool :=
  match v with
  | VBool b => b
  | VInt z => negb (z =? 0)
  | VFloat (Fin q) => negb (Qeq_bool q 0)
  | VFloat _ => true
  end.

(** [v] as a float, for [v * tensor] and for torch's numeric arguments. *)
Definition to_float (v : pyvalue) : pyfloat :=
  match v with
  | VBool b => of_int (if b then 1 else 0)
  | VInt z => of_int z
  | VFloat f => f
  end.

(** [step % v == 0] for an integer [step]. *)
Definition mod_is_zero (step : Z) (v : pyvalue) : result bool :=
  match v with
  | VBool b => if b then Ok true else Err ZeroDivisionError
  | VInt z => if z =? 0 then Err ZeroDivisionError else Ok (step mod z =? 0)
  | VFloat (Fin q) =>
      match Qsign q with
      | Eq => Err ZeroDivisionError
      | _ => let r := (inject_Z step / q)%Q in
             Ok (Qeq_bool r (inject_Z (Qfloor r)))
      end
  | VFloat NaN => Ok false
  | VFloat _ => Ok (step =? 0)
  end.

(* ================================================================== *)
(** ** Data shared by [main], [train] and [infer] *)

(** A genome is a nested list of integers, e.g. [[[[3,0],[3,1]]]]. *)
Inductive Genome : Type :=
| GInt (z : Z)
| GList (l : list Genome).

(** What [main] does to the outside world, in order. *)
Inductive event : Type :=
| EvCreateExpDir (path : string)
| EvDecode (search_space : string)
| EvBuild (search_space : string)
| EvLoadData (train : bool)
| EvOpen (path : string)
| EvWrite (field : string)
| EvClose (path : string).

(** [os.path.join(a, b)] on POSIX paths. *)
Definition starts_with_slash (s : string) : bool :=
  match s with
  | String c _ => Ascii.eqb c "/"%char
  | EmptyString => false
  end.

Fixpoint ends_with_slash (s : string) : bool :=
  match s with
  | EmptyString => false
  | String c EmptyString => Ascii.eqb c "/"%char
  | String _ s' => ends_with_slash s'
  end.

Definition os_path_join (a b : string) : string :=
  if starts_with_slash b then b
  else if match a with EmptyString => true | _ => ends_with_slash a end
       then (a ++ b)%string
  else (a ++ "/" ++ b)%string.

(** The keyword arguments of [main] (lines 32-34). *)
Record Args : Type := mkArgs {
  genome : Genome;
  epochs : Z;
  search_space : string;
  save : string;
  expr_root : string;
  seed : Z;
  gpu : Z;
  init_channels : Z;
  layers : Z;
  auxiliary : bool;
  cutout : bool;
  drop_path_prob : pyfloat
}.

(** [predicted.eq(targets).sum().item()] on two label vectors of one batch
    (of the same length, as the network returns one row of logits per
    input). *)
Fixpoint eq_sum (predicted targets : list Z) : Z :=
  match predicted, targets with
  | p :: ps, t :: ts => (if p =? t then 1 else 0) + eq_sum ps ts
  | _, _ => 0
  end.

(** [DataLoader(data, batch_size=n)] with the default sequential sampler and
    [drop_last=False]: consecutive slices of [n] examples, the last one
    shorter. *)
Fixpoint chunks {A : Type} (fuel : nat) (n : nat) (l : list A) : list (list A) :=
  match fuel, l with
  | _, [] => []
  | O, _ => []
  | S fuel', _ => firstn n l :: chunks fuel' n (skipn n l)
  end.

Set Implicit Arguments.

Section Harness.

(** Types owned by the collaborators. *)
Variable Genotype : Type.   (* decoded architecture *)
Variable W : Type.          (* parameters and buffers of a torch module *)
Variable O : Type.          (* momentum buffers of the SGD optimizer *)
Variable Sc : Type.         (* state of a [GradScaler] *)
Variable Input : Type.      (* one input image *)
Variable Tensor : Type.     (* a batch of logits *)

(** A batch as the data loader yields it: [(inputs, targets)]. *)
Definition batch : Type := (list Input * list Z)%type.

Definition DataLoader (data : list (Input * Z)) (batch_size : nat) : list batch :=
  map (fun c => (map fst c, map snd c)) (chunks (List.length data) batch_size data).

(** The collaborators. *)
Record Env : Type := mkEnv {
  (* misc.utils *)
  create_exp_dir : string -> result unit;
  (* search.micro_encoding.decode, search.macro_encoding.decode *)
  micro_decode : Genome -> result Genotype;
  macro_decode : Genome -> result Genotype;
  (* models.micro_models.NetworkCIFAR(C, num_classes, layers, auxiliary, genotype) *)
  NetworkCIFAR : Z -> Z -> Z -> bool -> Genotype -> result W;
  (* models.macro_models.EvoNetwork(genotype, channels, num_classes, data_shape) *)
  EvoNetwork : Genotype -> list (Z * Z) -> Z -> Z * Z -> result W;
  (* np.prod(v.size()) for each parameter with requires_grad *)
  param_sizes : W -> list Z;
  (* search.cifar10_search.CIFAR10(root, train, cutout in the transform) *)
  CIFAR10 : string -> bool -> bool -> result (list (Input * Z));
  (* module.__call__: weights, training flag, droprate, inputs *)
  forward : W -> bool -> option pyfloat -> list Input -> (Tensor * Tensor) * W;
  (* outputs.max(1)[1] *)
  max1 : Tensor -> list Z;
  (* nn.CrossEntropyLoss() *)
  CrossEntropyLoss : Tensor -> list Z -> pyfloat;
  (* torch.optim.SGD(parameters, lr, momentum, weight_decay) *)
  SGD : W -> O;
  (* GradScaler() *)
  GradScaler : Sc;
  (* scale(loss).backward(); unscale_; clip_grad_norm_; step; update:
     weights, buffers, scaler, position of the learning rate on the
     schedule, clip threshold, the batch and its loss *)
  amp_step : W -> O -> Sc -> nat -> pyfloat -> batch -> pyfloat -> W * O * Sc;
  (* torch.randn(1, 3, 32, 32): one image *)
  randn : Input;
  (* operations counted by the hooks during one forward pass *)
  forward_flops : W -> list Input -> Z;
  (* open(path, "w") *)
  open_w : string -> result unit;
  (* file.write of the line that starts with the given field name *)
  file_write : string -> result unit;
  (* file.close(), as the with block calls it on the way out *)
  file_close : string -> result unit
}.

Variable env : Env.

(** The module object bound to [model] in [main] and to [net] in [train] and
    [infer]: one mutable object, passed by reference. *)
Record Net : Type := mkNet {
  weights : W;
  training : bool;                 (* set by net.train() / net.eval() *)
  droprate : option pyfloat;       (* attribute assigned at line 139 *)
  flops_methods : bool;            (* add_flops_counting_methods applied *)
  flops_hooks : bool;              (* counting hooks attached *)
  flops_sum : Z;                   (* sum of the per-layer counters *)
  batch_counter : Z                (* examples seen by the hooks *)
}.

Definition set_weights (n : Net) (w : W) : Net :=
  mkNet w (training n) (droprate n) (flops_methods n) (flops_hooks n)
        (flops_sum n) (batch_counter n).

Definition set_training (n : Net) (b : bool) : Net :=
  mkNet (weights n) b (droprate n) (flops_methods n) (flops_hooks n)
        (flops_sum n) (batch_counter n).

Definition set_droprate (n : Net) (d : pyfloat) : Net :=
  mkNet (weights n) (training n) (Some d) (flops_methods n) (flops_hooks n)
        (flops_sum n) (batch_counter n).

(** [net(inputs)]: the forward pass, and the hooks when they are attached. *)
Definition call_net (n : Net) (inputs : list Input) : (Tensor * Tensor) * Net :=
  let '(out, w') := forward env (weights n) (training n) (droprate n) inputs in
  let n' := set_weights n w' in
  if flops_hooks n then
    (out, mkNet w' (training n) (droprate n) (flops_methods n) true
                (flops_sum n + forward_flops env (weights n) inputs)
                (batch_counter n + Z.of_nat (List.length inputs)))
  else (out, n').

(** The optimizer: its buffers, and its learning rate kept as the position
    on the cosine schedule whose value it holds. *)
Record Optimizer : Type := mkOptimizer {
  opt_buffers : O;
  lr_index : nat
}.

Definition criterion_t : Type := Tensor -> list Z -> pyfloat.

(* ---------------------------------------------------------------- *)
(** *** [train] (lines 174-209) *)

(** The local variables of [train] that live across batches, and the two
    objects it mutates. *)
Record train_state : Type := mkTrainState {
  ts_net : Net;
  ts_optimizer : Optimizer;
  ts_scaler : Sc;
  train_loss : pyfloat;
  ts_correct : Z;
  ts_total : Z
}.

Local Open Scope result_scope.

(** One iteration of the loop at line 181. *)
Definition train_batch (criterion : criterion_t) (params : dict)
    (step : Z) (b : batch) (s : train_state) : result train_state :=
  let '(inputs, targets) := b in
  let '((outputs, outputs_aux), net1) := call_net (ts_net s) inputs in
  let loss0 := criterion outputs targets in
  aux <- dict_get params "auxiliary" ;;
  loss <- (if truthy aux then
             let loss_aux := criterion outputs_aux targets in
             w <- dict_get params "auxiliary_weight" ;;
             Ok (fadd loss0 (fmul (to_float w) loss_aux))
           else Ok loss0) ;;
  grad_clip <- dict_get params "grad_clip" ;;
  let '(w', o', sc') :=
    amp_step env (weights net1) (opt_buffers (ts_optimizer s)) (ts_scaler s)
             (lr_index (ts_optimizer s)) (to_float grad_clip) b loss in
  let train_loss' := fadd (train_loss s) loss in
  let total' := ts_total s + Z.of_nat (List.length targets) in
  let correct' := ts_correct s + eq_sum (max1 env outputs) targets in
  log_interval <- dict_get params "log_interval" ;;
  report <- mod_is_zero step log_interval ;;
  _ <- (if report then
          _ <- fdiv train_loss' (of_int (step + 1)) ;;
          _ <- fdiv (fmul (Fin 100) (of_int correct')) (of_int total') ;;
          Ok tt
        else Ok tt) ;;
  Ok (mkTrainState (set_weights net1 w')
                   (mkOptimizer o' (lr_index (ts_optimizer s)))
                   sc' train_loss' correct' total').

Fixpoint train_loop (criterion : criterion_t) (params : dict)
    (step : Z) (queue : list batch) (s : train_state) : result train_state :=
  match queue with
  | [] => Ok s
  | b :: rest =>
      s' <- train_batch criterion params step b s ;;
      train_loop criterion params (step + 1) rest s'
  end.

(** [train(train_queue, net, criterion, optimizer, params, device)]: the two
    metrics, and the mutated [net] and [optimizer]. *)
Definition train (train_queue : list batch) (net : Net) (criterion : criterion_t)
    (optimizer : Optimizer) (params : dict) (device : string)
    : result ((pyfloat * pyfloat) * (Net * Optimizer)) :=
  let s0 := mkTrainState (set_training net true) optimizer (GradScaler env)
                         (of_int 0) 0 0 in
  s <- train_loop criterion params 0 train_queue s0 ;;
  acc <- fdiv (fmul (Fin 100) (of_int (ts_correct s))) (of_int (ts_total s)) ;;
  obj <- fdiv (train_loss s) (of_int (ts_total s)) ;;
  Ok ((acc, obj), (ts_net s, ts_optimizer s)).

(* ---------------------------------------------------------------- *)
(** *** [infer] (lines 213-232) *)

Record infer_state : Type := mkInferState {
  is_net : Net;
  test_loss : pyfloat;
  is_correct : Z;
  is_total : Z
}.

(** One iteration of the loop at line 220. *)
Definition infer_batch (criterion : criterion_t) (s : infer_state) (b : batch)
    : infer_state :=
  let '(inputs, targets) := b in
  let '((outputs, _), net1) := call_net (is_net s) inputs in
  let loss := criterion outputs targets in
  mkInferState net1
               (fadd (test_loss s) loss)
               (is_correct s + eq_sum (max1 env outputs) targets)
               (is_total s + Z.of_nat (List.length targets)).

Definition infer_loop (criterion : criterion_t) (valid_queue : list batch)
    (net : Net) : infer_state :=
  fold_left (infer_batch criterion) valid_queue
            (mkInferState (set_training net false) (of_int 0) 0 0).

(** [infer(valid_queue, net, criterion)]: accuracy, mean loss, and the
    mutated [net]. *)
Definition infer (valid_queue : list batch) (net : Net) (criterion : criterion_t)
    : result ((pyfloat * pyfloat) * Net) :=
  let s := infer_loop criterion valid_queue net in
  acc <- fdiv (fmul (Fin 100) (of_int (is_correct s))) (of_int (is_total s)) ;;
  obj <- fdiv (test_loss s) (of_int (is_total s)) ;;
  Ok ((acc, obj), is_net s).

(* ---------------------------------------------------------------- *)
(** *** The FLOP counter (misc/flops_counter.py, called at lines 148-153) *)

(** Modelled from the spec: misc/flops_counter.py is missing.  FLOP
    estimation "instruments every compute-bearing layer"; this first call
    gives the module its counting methods, with the counters at zero. *)
Definition add_flops_counting_methods (n : Net) : Net :=
  mkNet (weights n) (training n) (droprate n) true (flops_hooks n) 0 0.

(** Modelled from the spec: misc/flops_counter.py is missing.  "Acquire
    instrumentation": the hooks are attached, so that a forward pass
    "accumulate[s] a per-layer op count" (see [call_net]). *)
Definition start_flops_count (n : Net) : result Net :=
  if flops_methods n then
    Ok (mkNet (weights n) (training n) (droprate n) true true
              (flops_sum n) (batch_counter n))
  else Err (AttributeError "start_flops_count").

(** Modelled from the spec: misc/flops_counter.py is missing.  "Then sums
    and removes instrumentation afterward (profiling must be transparent --
    network behavior and Network state are unaffected once profiling
    ends)": the accumulated count, averaged over the examples seen, and the
    module with the hooks, the counters and the counting methods gone. *)
Definition compute_average_flops_cost (n : Net) : result (pyfloat * Net) :=
  if flops_methods n then
    avg <- fdiv (of_int (flops_sum n)) (of_int (batch_counter n)) ;;
    Ok (avg, mkNet (weights n) (training n) (droprate n) false false 0 0)
  else Err (AttributeError "compute_average_flops_cost").

(* ---------------------------------------------------------------- *)
(** *** [main] (lines 32-171) *)

(** Effects of [main]: the events so far, and the outcome. *)
Definition M (A : Type) : Type := (list event * result A)%type.

Definition ret {A : Type} (a : A) : M A := ([], Ok a).
Definition raise {A : Type} (e : exn) : M A := ([], Err e).
Definition lift {A : Type} (r : result A) : M A := ([], r).
(** A call to a collaborator: recorded, whether it returns or raises. *)
Definition call {A : Type} (ev : event) (r : result A) : M A := ([ev], r).

Definition mbind {A B : Type} (m : M A) (k : A -> M B) : M B :=
  match m with
  | (tr, Ok a) => let '(tr', r) := k a in (tr ++ tr', r)
  | (tr, Err e) => (tr, Err e)
  end.

Declare Scope io_scope.
Delimit Scope io_scope with io.
Notation "x <- m ;; k" := (mbind m (fun x => k))
  (at level 100, m at next level, right associativity) : io_scope.
Notation "' p <- m ;; k" := (mbind m (fun p => k))
  (at level 100, p pattern, m at next level, right associativity) : io_scope.

(** Constants set at lines 44-53. *)
Definition CIFAR_CLASSES : Z := 10.
Definition learning_rate : Q := 25 # 1000.
Definition data_root : string := "../data".
Definition batch_size : nat := 128.
Definition auxiliary_weight : pyfloat := Fin (4 # 10).
Definition grad_clip : Z := 5.
Definition report_freq : Z := 50.
Definition device : string := "cuda".

(** Lines 54-59. *)
Definition train_params (a : Args) : dict :=
  [ ("auxiliary", VBool (auxiliary a));
    ("auxiliary_weight", VFloat auxiliary_weight);
    ("grad_clip", VInt grad_clip);
    ("report_freq", VInt report_freq) ].

(** Lines 61-71: decode the genome and build the network. *)
Definition build_model (a : Args) : M (Genotype * W) :=
  (if (search_space a =? "micro")%string then
     genotype <- call (EvDecode "micro") (micro_decode env (genome a)) ;;
     model <- call (EvBuild "micro")
                   (NetworkCIFAR env (init_channels a) CIFAR_CLASSES (layers a)
                                 (auxiliary a) genotype) ;;
     ret (genotype, model)
   else if (search_space a =? "macro")%string then
     genotype <- call (EvDecode "macro") (macro_decode env (genome a)) ;;
     let channels := [ (3, init_channels a);
                       (init_channels a, 2 * init_channels a);
                       (2 * init_channels a, 4 * init_channels a) ] in
     model <- call (EvBuild "macro")
                   (EvoNetwork env genotype channels CIFAR_CLASSES (32, 32)) ;;
     ret (genotype, model)
   else raise (NameError "Unknown search space type"))%io.

(** A freshly constructed module: training mode, nothing attached. *)
Definition new_module (w : W) : Net := mkNet w true None false false 0 0.

(** [CosineAnnealingLR(optimizer, T_max)]: constructing it leaves
    [last_epoch = 0] and the optimizer at the initial learning rate; each
    [step()] adds one to [last_epoch] and stores the schedule's value for
    that position in the optimizer (torch >= 1.1, which the import of
    torch.cuda.amp requires). *)
Record Scheduler : Type := mkScheduler {
  T_max : Z;
  last_epoch : nat
}.

(** The objects the epoch loop works on. *)
Record LoopState : Type := mkLoopState {
  ls_model : Net;
  ls_optimizer : Optimizer;
  ls_scheduler : Scheduler
}.

Definition scheduler_step (st : LoopState) : LoopState :=
  let k := S (last_epoch (ls_scheduler st)) in
  mkLoopState (ls_model st)
              (mkOptimizer (opt_buffers (ls_optimizer st)) k)
              (mkScheduler (T_max (ls_scheduler st)) k).

(** Positional arguments at a call site of [train]. *)
Inductive pyarg : Type :=
| ArgQueue (q : list batch)
| ArgNet (n : Net)
| ArgCriterion (c : criterion_t)
| ArgOptimizer (o : Optimizer)
| ArgDict (d : dict)
| ArgStr (s : string).

Definition train_arity_error : exn :=
  TypeError "train() positional arguments do not match its six parameters".

(** Calling [train] with positional arguments: the six parameters of line
    174 have no defaults, so any other number of arguments is a TypeError
    raised before the body runs. *)
Definition call_train (args : list pyarg)
    : result ((pyfloat * pyfloat) * (Net * Optimizer)) :=
  match args with
  | [ArgQueue q; ArgNet n; ArgCriterion c; ArgOptimizer o; ArgDict p; ArgStr d] =>
      train q n c o p d
  | _ => Err train_arity_error
  end.

(** Lines 137-139: what an epoch does before it trains. *)
Definition epoch_prologue (a : Args) (st : LoopState) (epoch : Z) : result LoopState :=
  let st1 := scheduler_step st in
  d <- fdiv (fmul (drop_path_prob a) (of_int epoch)) (of_int (epochs a)) ;;
  Ok (mkLoopState (set_droprate (ls_model st1) d) (ls_optimizer st1) (ls_scheduler st1)).

(** Lines 137-142: one epoch. *)
Definition epoch_body (a : Args) (train_queue : list batch) (criterion : criterion_t)
    (st : LoopState) (epoch : Z) : result LoopState :=
  st1 <- epoch_prologue a st epoch ;;
  r <- call_train [ArgQueue train_queue; ArgNet (ls_model st1); ArgCriterion criterion;
                   ArgOptimizer (ls_optimizer st1); ArgDict (train_params a)] ;;
  let '(_, (net', optimizer')) := r in
  Ok (mkLoopState net' optimizer' (ls_scheduler st1)).

(** [range(n)] *)
Definition range (n : Z) : list Z := map Z.of_nat (seq 0 (Z.to_nat n)).

(** Lines 136-142. *)
Fixpoint epoch_loop (a : Args) (train_queue : list batch) (criterion : criterion_t)
    (es : list Z) (st : LoopState) : result LoopState :=
  match es with
  | [] => Ok st
  | epoch :: es' =>
      st' <- epoch_body a train_queue criterion st epoch ;;
      epoch_loop a train_queue criterion es' st'
  end.

(** Lines 147-154: the FLOP estimate, and the module as it is left. *)
Definition profile_flops (model : Net) : result (pyfloat * Net) :=
  let model := add_flops_counting_methods model in
  let model := set_training model false in
  model <- start_flops_count model ;;
  let '(_, model) := call_net model [randn env] in
  r <- compute_average_flops_cost model ;;
  let '(avg, model) := r in
  millions <- fdiv avg (Fin 1000000) ;;
  Ok (np_round millions 4, model).

(** Leaving a [with] block: the exit action runs whether the body returned
    or raised; its own exception, if any, is the one that propagates. *)
Definition with_exit {A : Type} (body : M A) (exit : M unit) : M A :=
  let '(tr, r) := body in
  let '(tr', x) := exit in
  (tr ++ tr', match x with Ok _ => r | Err e => Err e end).

(** Lines 159-163: the body of the [with] block. *)
Definition write_lines : M unit :=
  (_ <- call (EvWrite "Genome") (file_write env "Genome") ;;
   _ <- call (EvWrite "Architecture") (file_write env "Architecture") ;;
   _ <- call (EvWrite "param size") (file_write env "param size") ;;
   _ <- call (EvWrite "flops") (file_write env "flops") ;;
   call (EvWrite "valid_acc") (file_write env "valid_acc"))%io.

(** Lines 158-163. *)
Definition write_summary (path : string) : M unit :=
  (_ <- call (EvOpen path) (open_w env path) ;;
   with_exit write_lines (call (EvClose path) (file_close env path)))%io.

(** The dictionary [main] returns. *)
Definition record : Type := list (string * pyfloat).

(** Line 37 and line 158: where the summary goes. *)
Definition save_pth (a : Args) : string := os_path_join (expr_root a) (save a).
Definition log_path (a : Args) : string := os_path_join (save_pth a) "log.txt".

(** Lines 91-96 and 134: the optimizer at the initial learning rate and the
    scheduler just constructed. *)
Definition loop_init (a : Args) (model : Net) (buffers : O) : LoopState :=
  mkLoopState model (mkOptimizer buffers 0) (mkScheduler (epochs a) 0).

Definition main (a : Args) : M record :=
  (_ <- call (EvCreateExpDir (save_pth a)) (create_exp_dir env (save_pth a)) ;;
   gm <- build_model a ;;
   let '(genotype, w) := gm in
   let model := new_module w in
   n_params <- lift (fdiv (of_int (fold_right Z.add 0 (param_sizes env w)))
                          (Fin 1000000)) ;;
   let criterion := CrossEntropyLoss env in
   train_data <- call (EvLoadData true) (CIFAR10 env data_root true (cutout a)) ;;
   valid_data <- call (EvLoadData false) (CIFAR10 env data_root false false) ;;
   let train_queue := DataLoader train_data batch_size in
   let valid_queue := DataLoader valid_data batch_size in
   st <- lift (epoch_loop a train_queue criterion (range (epochs a))
                          (loop_init a model (SGD env w))) ;;
   vr <- lift (infer valid_queue (ls_model st) criterion) ;;
   let '((valid_acc, valid_obj), model) := vr in
   fr <- lift (profile_flops model) ;;
   let '(n_flops, model) := fr in
   _ <- write_summary (log_path a) ;;
   ret [ ("valid_acc", valid_acc); ("params", n_params); ("flops", n_flops) ])%io.

End Harness.

Unset Implicit Arguments.

(* ================================================================== *)
(** ** The cosine schedule

    [torch.optim.lr_scheduler.CosineAnnealingLR(optimizer, T_max)] with the
    default [eta_min = 0], by the closed form of its documentation:
    after [k] steps the learning rate is
    [eta_min + (base_lr - eta_min) * (1 + cos(pi * k / T_max)) / 2].
    The cosine has no rational model, so the schedule is stated over the
    reals. *)

Module Cosine.

Local Open Scope R_scope.

Definition eta_min : R := 0.

Definition CosineAnnealingLR (base_lr : R) (T_max : Z) (k : nat) : R :=
  match k with
  | O => base_lr
  | S _ => eta_min + (base_lr - eta_min) * (1 + cos (PI * INR k / IZR T_max)) / 2
  end.

(** The configured initial learning rate (line 45). *)
Definition initial_lr : R := Q2R learning_rate.

(** The learning rate the optimizer of [st] holds. *)
Definition lr {W O : Type} (st : LoopState W O) : R :=
  CosineAnnealingLR initial_lr (T_max (ls_scheduler st)) (lr_index (ls_optimizer st)).

End Cosine.

(* ================================================================== *)
(** ** Vocabulary of the statements *)

(** The fields the specification gives to a result record. *)
Definition ResultRecord_fields : list string :=
  [ "genome"; "architecture_description"; "param_count_millions";
    "flop_count_millions"; "validation_accuracy"; "validation_loss" ].

(** [r] has exactly the fields [fs], in any order. *)
Definition has_exactly_fields (r : record) (fs : list string) : Prop :=
  Permutation (map fst r) fs.

(** Number of examples of a stream: the sum of [targets.size(0)]. *)
Definition stream_examples {Input : Type} (q : list (batch Input)) : Z :=
  fold_right (fun b n => Z.of_nat (List.length (snd b)) + n) 0 q.

(** [x < y] on floats; false as soon as one side is NaN. *)
Definition flt (x y : pyfloat) : Prop :=
  match x, y with
  | NaN, _ | _, NaN => False
  | Fin a, Fin b => (a < b)%Q
  | _, NInf | PInf, _ => False
  | NInf, _ | _, PInf => True
  end.

(** [params] holds every key [train] reads, and a non-zero [log_interval]. *)
Definition params_ready (params : dict) : bool :=
  match dict_get params "auxiliary", dict_get params "grad_clip",
        dict_get params "log_interval" with
  | Ok aux, Ok _, Ok li =>
      (if truthy aux then is_ok (dict_get params "auxiliary_weight") else true)
      && truthy li
  | _, _, _ => false
  end.

(** The exceptions [train] can raise. *)
Definition train_exception (e : exn) : Prop :=
  exn_class e = "KeyError" \/ exn_class e = "ZeroDivisionError".

(** [ev] belongs to the writing of the summary file. *)
Definition summary_event (ev : event) : Prop :=
  match ev with
  | EvOpen _ | EvWrite _ | EvClose _ => True
  | _ => False
  end.

(** The fields of the summary, in the order of lines 159-163. *)
Definition summary_fields : list string :=
  [ "Genome"; "Architecture"; "param size"; "flops"; "valid_acc" ].

(** The events of a complete summary: the file is opened, one line is
    written per field, the file is closed. *)
Definition summary_trace (path : string) : list event :=
  EvOpen path :: map EvWrite summary_fields ++ [EvClose path].

(** [n] carries nothing of the FLOP counter. *)
Definition uninstrumented {W : Type} (n : Net W) : Prop :=
  flops_methods n = false /\ flops_hooks n = false /\
  flops_sum n = 0 /\ batch_counter n = 0.

(** Two [params] dictionaries agree on the keys that drive the training
    step. *)
Definition same_training_keys (p1 p2 : dict) : Prop :=
  dict_get p1 "auxiliary" = dict_get p2 "auxiliary" /\
  dict_get p1 "auxiliary_weight" = dict_get p2 "auxiliary_weight" /\
  dict_get p1 "grad_clip" = dict_get p2 "grad_clip".

(** [params] holds the keys [train] reads before it reports: 'auxiliary',
    'grad_clip', and 'auxiliary_weight' when 'auxiliary' is true. *)
Definition step_keys_ready (params : dict) : bool :=
  match dict_get params "auxiliary", dict_get params "grad_clip" with
  | Ok aux, Ok _ =>
      if truthy aux then is_ok (dict_get params "auxiliary_weight") else true
  | _, _ => false
  end.

(** No event of [tr] is a genome decoding or a network construction. *)
Definition no_decode_no_build (tr : list event) : Prop :=
  forall ev, In ev tr ->
    match ev with
    | EvDecode _ | EvBuild _ => False
    | _ => True
    end.

(* ================================================================== *)
(** ** A small concrete environment

    Images are integers, a network holds one integer weight and predicts the
    class [(x + w) mod 10] of image [x]; a batch of logits is represented by
    the labels it predicts.  The datasets hold three examples each. *)

Module Toy.

Definition Genotype : Type := Genome.
Definition W : Type := Z.
Definition O : Type := unit.
Definition Sc : Type := unit.
Definition Input : Type := Z.
Definition Tensor : Type := list Z.

Definition predict (w : W) (training : bool) (droprate : option pyfloat)
    (inputs : list Input) : (Tensor * Tensor) * W :=
  ((map (fun x => (x + w) mod 10) inputs, []), w).

(** Number of wrong predictions, as a stand-in for the loss. *)
Definition loss (outputs : Tensor) (targets : list Z) : pyfloat :=
  of_int (Z.of_nat (List.length targets) - eq_sum outputs targets).

Definition dataset (train : bool) : list (Input * Z) :=
  if train then [(1, 1); (2, 2); (3, 4)] else [(5, 5); (6, 7); (8, 8)].

(** [disk_ok = false]: opening the summary file fails. *)
Definition env (disk_ok : bool) : Env Genotype W O Sc Input Tensor :=
  {| create_exp_dir := fun _ => Ok tt;
     micro_decode := fun g => Ok g;
     macro_decode := fun g => Ok g;
     NetworkCIFAR := fun C _ _ _ _ => Ok 0;
     EvoNetwork := fun _ _ _ _ => Ok 0;
     param_sizes := fun _ => [432; 16];
     CIFAR10 := fun _ train _ => Ok (dataset train);
     forward := predict;
     max1 := fun t => t;
     CrossEntropyLoss := loss;
     SGD := fun _ => tt;
     GradScaler := tt;
     amp_step := fun w o sc _ _ _ _ => (w + 1, o, sc);
     randn := 0;
     forward_flops := fun _ _ => 2500000;
     open_w := fun p => if disk_ok then Ok tt else Err (OSError p);
     file_write := fun _ => Ok tt;
     file_close := fun _ => Ok tt |}.

(** The genome [[[[3,0],[3,1]]]]. *)
Definition micro_genome : Genome :=
  GList [GList [GList [GList [GInt 3; GInt 0]; GList [GInt 3; GInt 1]]]].

(** [main(genome, epochs, search_space, save='Design_1', expr_root='search',
    seed=0, gpu=0, init_channels=16, layers=11, auxiliary=False,
    cutout=False, drop_path_prob=0.0)] *)
Definition args (epochs : Z) (search_space : string) : Args :=
  {| genome := micro_genome; epochs := epochs; search_space := search_space;
     save := "Design_1"; expr_root := "search"; seed := 0; gpu := 0;
     init_channels := 16; layers := 11; auxiliary := false; cutout := false;
     drop_path_prob := Fin 0 |}.

(** The same call with [drop_path_prob = p]. *)
Definition args_drop (epochs : Z) (p : Q) : Args :=
  {| genome := micro_genome; epochs := epochs; search_space := "micro";
     save := "Design_1"; expr_root := "search"; seed := 0; gpu := 0;
     init_channels := 16; layers := 11; auxiliary := false; cutout := false;
     drop_path_prob := Fin p |}.

(** A [params] dictionary with every key [train] reads. *)
Definition params : dict :=
  [ ("auxiliary", VBool false); ("auxiliary_weight", VFloat (Fin (4 # 10)));
    ("grad_clip", VInt 5); ("log_interval", VInt 50) ].

Definition queue : list (batch Input) := DataLoader (dataset true) 2.

(** A criterion that yields NaN on every batch. *)
Definition nan_criterion : criterion_t Tensor := fun _ _ => NaN.

Definition valid_queue : list (batch Input) := DataLoader (dataset false) batch_size.

(** The state of the loop when [main] enters it. *)
Definition loop0 (a : Args) : LoopState W O := loop_init a (new_module 0) tt.

(** An environment whose setup steps can fail one by one, with a chosen
    validation set. *)
Definition env_setup (decode_ok build_ok train_ok : bool) (valid : list (Input * Z))
    : Env Genotype W O Sc Input Tensor :=
  {| create_exp_dir := fun _ => Ok tt;
     micro_decode := fun g => if decode_ok then Ok g else Err (mkExn "ValueError" "genome");
     macro_decode := fun g => if decode_ok then Ok g else Err (mkExn "ValueError" "genome");
     NetworkCIFAR := fun C _ _ _ _ =>
       if build_ok then Ok 0 else Err (mkExn "RuntimeError" "network");
     EvoNetwork := fun _ _ _ _ =>
       if build_ok then Ok 0 else Err (mkExn "RuntimeError" "network");
     param_sizes := fun _ => [432; 16];
     CIFAR10 := fun _ train _ =>
       if train then (if train_ok then Ok (dataset true) else Err (OSError "data"))
       else Ok valid;
     forward := predict;
     max1 := fun t => t;
     CrossEntropyLoss := loss;
     SGD := fun _ => tt;
     GradScaler := tt;
     amp_step := fun w o sc _ _ _ _ => (w + 1, o, sc);
     randn := 0;
     forward_flops := fun _ _ => 2500000;
     open_w := fun _ => Ok tt;
     file_write := fun _ => Ok tt;
     file_close := fun _ => Ok tt |}.

(** An environment in which writing the line of [field] fails. *)
Definition env_summary (field : string) : Env Genotype W O Sc Input Tensor :=
  {| create_exp_dir := fun _ => Ok tt;
     micro_decode := fun g => Ok g;
     macro_decode := fun g => Ok g;
     NetworkCIFAR := fun C _ _ _ _ => Ok 0;
     EvoNetwork := fun _ _ _ _ => Ok 0;
     param_sizes := fun _ => [432; 16];
     CIFAR10 := fun _ train _ => Ok (dataset train);
     forward := predict;
     max1 := fun t => t;
     CrossEntropyLoss := loss;
     SGD := fun _ => tt;
     GradScaler := tt;
     amp_step := fun w o sc _ _ _ _ => (w + 1, o, sc);
     randn := 0;
     forward_flops := fun _ _ => 2500000;
     open_w := fun _ => Ok tt;
     file_write := fun f => if String.eqb f field then Err (OSError f) else Ok tt;
     file_close := fun _ => Ok tt |}.

(** [params] with [log_interval = 0]. *)
Definition params_zero_interval : dict :=
  [ ("auxiliary", VBool false); ("auxiliary_weight", VFloat (Fin (4 # 10)));
    ("grad_clip", VInt 5); ("log_interval", VInt 0) ].

(** [params] asking for the auxiliary loss without giving its weight. *)
Definition params_aux_no_weight : dict :=
  [ ("auxiliary", VBool true); ("grad_clip", VInt 5); ("log_interval", VInt 50) ].

(** [params] without the auxiliary loss and without its weight. *)
Definition params_no_weight : dict :=
  [ ("auxiliary", VBool false); ("grad_clip", VInt 5); ("log_interval", VInt 50) ].

(** [params] that reports at every step. *)
Definition params_every_step : dict :=
  [ ("auxiliary", VBool false); ("auxiliary_weight", VFloat (Fin (4 # 10)));
    ("grad_clip", VInt 5); ("log_interval", VInt 1) ].

End Toy.

(* ================================================================== *)
(** ** Arithmetic of [pyfloat] *)

Lemma inject_Z_le (x y : Z) : x <= y -> (inject_Z x <= inject_Z y)%Q.
Proof. intro H. rewrite <- Zle_Qle. exact H. Qed.

Lemma inject_Z_lt (x y : Z) : x < y -> (inject_Z x < inject_Z y)%Q.
Proof. intro H. rewrite <- Zlt_Qlt. exact H. Qed.

Lemma Qsign_inject_Z (n : Z) : n <> 0 -> Qsign (inject_Z n) <> Eq.
Proof. destruct n; unfold Qsign; simpl; congruence. Qed.

Lemma Qsign_Eq_iff (q : Q) : Qsign q = Eq <-> (q == 0)%Q.
Proof.
  unfold Qsign, Qeq; destruct q as [n d]; simpl.
  destruct n; split; intro H; try reflexivity; try discriminate; lia.
Qed.

Lemma fdiv_Fin_int (a : Q) (n : Z) :
  n <> 0 -> fdiv (Fin a) (of_int n) = Ok (Fin (Qred (a / inject_Z n))).
Proof.
  intro Hn. unfold fdiv, of_int.
  pose proof (Qsign_inject_Z n Hn) as Hs.
  destruct (Qsign (inject_Z n)); congruence.
Qed.

(** Dividing by a non-zero integer never raises, and keeps a non-finite
    value non-finite. *)
Lemma fdiv_int_total (x : pyfloat) (n : Z) :
  n <> 0 ->
  exists y, fdiv x (of_int n) = Ok y /\ (is_finite x = false -> is_finite y = false).
Proof.
  intro Hn. unfold fdiv, of_int.
  pose proof (Qsign_inject_Z n Hn) as Hs.
  destruct (Qsign (inject_Z n)); try congruence;
    destruct x; simpl; eexists; split; try reflexivity; auto.
Qed.

Lemma fdiv_of_int (x n : Z) :
  n <> 0 -> fdiv (of_int x) (of_int n) = Ok (Fin (Qred (inject_Z x / inject_Z n))).
Proof. apply fdiv_Fin_int. Qed.

Lemma fdiv_zero (x : pyfloat) : fdiv x (of_int 0) = Err ZeroDivisionError.
Proof. reflexivity. Qed.

Lemma fadd_nonfinite_r (x y : pyfloat) :
  is_finite y = false -> is_finite (fadd x y) = false.
Proof. destruct x, y; simpl; congruence. Qed.

Lemma fadd_nonfinite_l (x y : pyfloat) :
  is_finite x = false -> is_finite (fadd x y) = false.
Proof. destruct x, y; simpl; congruence. Qed.

(** [100. * c / t] for integers [0 <= c <= t], [0 < t]. *)
Lemma percent_bounds (c t : Z) :
  0 <= c <= t -> 0 < t ->
  exists acc,
    fdiv (fmul (Fin 100) (of_int c)) (of_int t) = Ok (Fin acc) /\
    (0 <= acc <= 100)%Q.
Proof.
  intros [Hc Hct] Ht.
  change (fmul (Fin 100) (of_int c)) with (Fin (Qred (100 * inject_Z c))).
  rewrite fdiv_Fin_int by lia.
  eexists; split; [reflexivity|].
  rewrite !Qred_correct.
  assert (Ht' : (0 < inject_Z t)%Q) by (apply (inject_Z_lt 0 t); exact Ht).
  split.
  - apply Qle_shift_div_l; [exact Ht'|].
    rewrite Qmult_0_l.
    change (inject_Z 0 <= inject_Z (100 * c))%Q. apply inject_Z_le. lia.
  - apply Qle_shift_div_r; [exact Ht'|].
    change (inject_Z (100 * c) <= inject_Z (100 * t))%Q. apply inject_Z_le. lia.
Qed.

Lemma Qmult_le_nonneg_l (p x y : Q) : (0 <= p -> x <= y -> p * x <= p * y)%Q.
Proof.
  intros Hp Hxy. rewrite (Qmult_comm p x), (Qmult_comm p y).
  apply Qmult_le_compat_r; assumption.
Qed.

Lemma Qdiv_le_mono (a b c : Q) : (0 < c -> a <= b -> a / c <= b / c)%Q.
Proof.
  intros Hc Hab. unfold Qdiv. apply Qmult_le_compat_r; [exact Hab|].
  apply Qinv_le_0_compat, Qlt_le_weak, Hc.
Qed.

(** [p * e / n] for a float [p] and integers [e], [n <> 0]. *)
Lemma fdiv_fmul_int (p : Q) (e n : Z) :
  n <> 0 ->
  fdiv (fmul (Fin p) (of_int e)) (of_int n)
    = Ok (Fin (Qred (Qred (p * inject_Z e) / inject_Z n))).
Proof.
  intro Hn.
  change (fmul (Fin p) (of_int e)) with (Fin (Qred (p * inject_Z e))).
  apply fdiv_Fin_int, Hn.
Qed.

(* ================================================================== *)
(** ** Counting correct predictions *)

Lemma eq_sum_bounds (predicted targets : list Z) :
  0 <= eq_sum predicted targets <= Z.of_nat (List.length targets).
Proof.
  revert targets; induction predicted as [|p ps IH]; intros [|t ts];
    cbn [eq_sum List.length]; try lia.
  specialize (IH ts). destruct (p =? t); lia.
Qed.

Lemma stream_examples_nonneg {Input : Type} (q : list (batch Input)) :
  0 <= stream_examples q.
Proof.
  induction q as [|b q IH]; [cbn; lia|].
  change (stream_examples (b :: q))
    with (Z.of_nat (List.length (snd b)) + stream_examples q). lia.
Qed.

Lemma stream_examples_pos {Input : Type} (q : list (batch Input)) :
  q <> [] -> Forall (fun b => snd b <> []) q -> 0 < stream_examples q.
Proof.
  intros Hq Hall. destruct q as [|b q]; [congruence|].
  inversion Hall as [|? ? Hb _]; subst.
  pose proof (stream_examples_nonneg q) as Hpos.
  change (stream_examples (b :: q))
    with (Z.of_nat (List.length (snd b)) + stream_examples q).
  destruct (snd b) as [|t ts]; [congruence|]. cbn [List.length]. lia.
Qed.

(* ================================================================== *)
(** ** The data loader *)

Lemma chunks_spec {A : Type} (n : nat) :
  (0 < n)%nat ->
  forall (fuel : nat) (l : list A),
    (List.length l <= fuel)%nat ->
    Forall (fun c => c <> []) (chunks fuel n l) /\ List.concat (chunks fuel n l) = l.
Proof.
  intro Hn. induction fuel as [|fuel IH]; intros l Hl.
  - destruct l; [|cbn in Hl; lia]. cbn. split; [constructor|reflexivity].
  - destruct l as [|x l]; [cbn; split; [constructor|reflexivity]|].
    cbn [chunks].
    destruct (IH (skipn n (x :: l))) as [Hall Hcat].
    { pose proof (length_skipn n (x :: l)) as Hlen. cbn [List.length] in *. lia. }
    split.
    + constructor; [|exact Hall].
      destruct n as [|n]; [lia|]. cbn [firstn]. discriminate.
    + cbn [List.concat]. rewrite Hcat. apply firstn_skipn.
Qed.

(** With a positive batch size no batch is empty, the stream is empty only
    for an empty dataset, and the batches hold every example once. *)
Lemma DataLoader_spec {Input : Type} (data : list (Input * Z)) (n : nat) :
  (0 < n)%nat ->
  Forall (fun b => snd b <> []) (DataLoader data n) /\
  (data <> [] -> DataLoader data n <> []) /\
  stream_examples (DataLoader data n) = Z.of_nat (List.length data).
Proof.
  intro Hn. unfold DataLoader.
  destruct (chunks_spec n Hn (List.length data) data (Nat.le_refl _)) as [Hall Hcat].
  revert Hall Hcat. generalize (chunks (List.length data) n data) as cs.
  intros cs Hall Hcat. subst data. split; [|split].
  - induction Hall as [|c cs Hc Hall IH]; cbn [map]; constructor; [|exact IH].
    cbn [snd]. destruct c; [congruence|discriminate].
  - destruct cs; [intro H; exfalso; apply H; reflexivity|discriminate].
  - clear Hall. induction cs as [|c cs IH]; [reflexivity|].
    cbn [map List.concat].
    change (stream_examples ((map fst c, map snd c)
                               :: map (fun c0 => (map fst c0, map snd c0)) cs))
      with (Z.of_nat (List.length (map snd c))
            + stream_examples (map (fun c0 => (map fst c0, map snd c0)) cs)).
    rewrite IH, length_map, length_app. lia.
Qed.

(* ================================================================== *)
(** ** Facts about [infer], [train] and [main] *)

Section HarnessFacts.

Context {Genotype W O Sc Input Tensor : Type}.
Variable env : Env Genotype W O Sc Input Tensor.

(* ---------------------------------------------------------------- *)
(** *** The evaluation pass *)

Lemma infer_batch_counts (criterion : criterion_t Tensor)
    (s : infer_state W) (b : batch Input) :
  is_total (infer_batch env criterion s b)
    = is_total s + Z.of_nat (List.length (snd b)) /\
  (0 <= is_correct s <= is_total s ->
   0 <= is_correct (infer_batch env criterion s b)
     <= is_total (infer_batch env criterion s b)).
Proof.
  destruct b as [inputs targets]. unfold infer_batch.
  destruct (call_net env (is_net s) inputs) as [[outputs aux] net1].
  cbn [is_total is_correct snd]. split; [reflexivity|].
  pose proof (eq_sum_bounds (max1 env outputs) targets). lia.
Qed.

Lemma infer_fold_counts (criterion : criterion_t Tensor)
    (q : list (batch Input)) (s : infer_state W) :
  is_total (fold_left (infer_batch env criterion) q s)
    = is_total s + stream_examples q /\
  (0 <= is_correct s <= is_total s ->
   0 <= is_correct (fold_left (infer_batch env criterion) q s)
     <= is_total (fold_left (infer_batch env criterion) q s)).
Proof.
  revert s; induction q as [|b q IH]; intro s.
  - cbn [fold_left]. change (stream_examples (@nil (batch Input))) with 0.
    split; [lia|auto].
  - cbn [fold_left].
    change (stream_examples (b :: q))
      with (Z.of_nat (List.length (snd b)) + stream_examples q).
    destruct (IH (infer_batch env criterion s b)) as [Ht Hc].
    destruct (infer_batch_counts criterion s b) as [Ht1 Hc1].
    split; [lia|]. intro H. apply Hc, Hc1, H.
Qed.

(** C8: on a non-empty validation stream of non-empty batches, the counter
    [total] of [infer] ends at the sum of the batch sizes (each batch is
    added once), and [infer] returns an accuracy between 0 and 100. *)
Theorem infer_accuracy_in_range_and_total_exact
    (valid_queue : list (batch Input)) (net : Net W) (criterion : criterion_t Tensor) :
  valid_queue <> [] ->
  Forall (fun b => snd b <> []) valid_queue ->
  is_total (infer_loop env criterion valid_queue net) = stream_examples valid_queue /\
  exists acc obj,
    infer env valid_queue net criterion
      = Ok ((Fin acc, obj), is_net (infer_loop env criterion valid_queue net)) /\
    (0 <= acc <= 100)%Q.
Proof.
  intros Hq Hall.
  pose proof (stream_examples_pos valid_queue Hq Hall) as Hpos.
  unfold infer. unfold infer_loop at 1.
  destruct (infer_fold_counts criterion valid_queue
              (mkInferState (set_training net false) (of_int 0) 0 0)) as [Ht Hc].
  cbn [is_total is_correct] in Ht, Hc.
  fold (infer_loop env criterion valid_queue net) in Ht, Hc |- *.
  specialize (Hc ltac:(lia)).
  split; [lia|].
  destruct (percent_bounds (is_correct (infer_loop env criterion valid_queue net))
              (is_total (infer_loop env criterion valid_queue net)))
    as [acc [Hacc Hb]]; [lia|lia|].
  destruct (fdiv_int_total (test_loss (infer_loop env criterion valid_queue net))
              (is_total (infer_loop env criterion valid_queue net)))
    as [obj [Hobj _]]; [lia|].
  exists acc, obj. rewrite Hacc, Hobj. cbn [bind]. auto.
Qed.

(** C9: on a stream that yields no batch, [infer] raises
    ZeroDivisionError at [100.*correct/total]; [train] ends the same way at
    its own division by [total]. *)
Theorem infer_empty_stream_raises
    (net : Net W) (criterion : criterion_t Tensor)
    (optimizer : Optimizer O) (params : dict) (device : string) :
  infer env [] net criterion = Err ZeroDivisionError /\
  train env [] net criterion optimizer params device = Err ZeroDivisionError.
Proof. split; reflexivity. Qed.

(* ---------------------------------------------------------------- *)
(** *** The training pass under non-finite losses *)

Lemma mod_is_zero_ok (step : Z) (v : pyvalue) :
  truthy v = true -> exists b, mod_is_zero step v = Ok b.
Proof.
  destruct v as [b|z|f]; cbn [truthy mod_is_zero].
  - intros ->. eauto.
  - intro H. destruct (z =? 0); [discriminate|eauto].
  - destruct f as [q| | |]; eauto. intro H.
    assert (Hs : Qsign q <> Eq).
    { intro Hs. apply Qsign_Eq_iff in Hs. apply Qeq_bool_iff in Hs.
      rewrite Hs in H. discriminate. }
    destruct (Qsign q); eauto; congruence.
Qed.

Lemma train_batch_nonfinite (criterion : criterion_t Tensor) (params : dict)
    (step : Z) (b : batch Input) (s : train_state W O Sc) :
  (forall o, is_finite (criterion o (snd b)) = false) ->
  params_ready params = true ->
  0 <= step -> 0 <= ts_total s -> snd b <> [] ->
  exists s', train_batch env criterion params step b s = Ok s' /\
             is_finite (train_loss s') = false /\
             0 < ts_total s'.
Proof.
  intros Hnan Hp Hstep Htot Hb.
  destruct b as [inputs targets]. cbn [snd] in Hb. unfold train_batch.
  destruct (call_net env (ts_net s) inputs) as [[outputs outputs_aux] net1].
  unfold params_ready in Hp.
  destruct (dict_get params "auxiliary") as [aux|]; [|discriminate].
  destruct (dict_get params "grad_clip") as [gc|]; [|discriminate].
  destruct (dict_get params "log_interval") as [li|]; [|discriminate].
  apply andb_true_iff in Hp. destruct Hp as [Hw Hli].
  cbn [bind].
  assert (Hloss : exists loss,
             (if truthy aux
              then bind (dict_get params "auxiliary_weight")
                     (fun w => Ok (fadd (criterion outputs targets)
                                        (fmul (to_float w) (criterion outputs_aux targets))))
              else Ok (criterion outputs targets)) = Ok loss /\
             is_finite loss = false).
  { destruct (truthy aux).
    - destruct (dict_get params "auxiliary_weight") as [w|]; [|discriminate].
      cbn [bind]. eexists; split; [reflexivity|].
      apply fadd_nonfinite_l, Hnan.
    - eexists; split; [reflexivity|apply Hnan]. }
  destruct Hloss as [loss [-> Hfin]]. cbn [bind].
  destruct (amp_step env (weights net1) (opt_buffers (ts_optimizer s)) (ts_scaler s)
              (lr_index (ts_optimizer s)) (to_float gc) (inputs, targets) loss)
    as [[w' o'] sc'].
  destruct (mod_is_zero_ok step li Hli) as [report ->]. cbn [bind].
  assert (Hlen : 0 < Z.of_nat (List.length targets))
    by (destruct targets; [congruence|cbn [List.length]; lia]).
  pose proof (eq_sum_bounds (max1 env outputs) targets) as Hsum.
  destruct report.
  - destruct (fdiv_int_total (fadd (train_loss s) loss) (step + 1)) as [x [-> _]];
      [lia|]. cbn [bind].
    change (fmul (Fin 100)
              (of_int (ts_correct s + eq_sum (max1 env outputs) targets)))
      with (Fin (Qred (100 * inject_Z (ts_correct s + eq_sum (max1 env outputs) targets)))).
    rewrite fdiv_Fin_int by lia. cbn [bind].
    eexists; split; [reflexivity|]. cbn [train_loss ts_total].
    split; [apply fadd_nonfinite_r, Hfin|lia].
  - cbn [bind]. eexists; split; [reflexivity|]. cbn [train_loss ts_total].
    split; [apply fadd_nonfinite_r, Hfin|lia].
Qed.

Lemma train_loop_nonfinite (criterion : criterion_t Tensor) (params : dict)
    (queue : list (batch Input)) :
  Forall (fun b => forall o, is_finite (criterion o (snd b)) = false) queue ->
  params_ready params = true ->
  Forall (fun b => snd b <> []) queue ->
  forall (step : Z) (s : train_state W O Sc),
    0 <= step -> 0 <= ts_total s ->
    exists s', train_loop env criterion params step queue s = Ok s' /\
               (queue <> [] \/ (is_finite (train_loss s) = false /\ 0 < ts_total s) ->
                is_finite (train_loss s') = false /\ 0 < ts_total s').
Proof.
  intros Hnan Hp Hall.
  induction Hall as [|b queue Hb Hall IH]; intros step s Hstep Htot.
  - cbn [train_loop]. exists s. split; [reflexivity|].
    intros [H|H]; [exfalso; apply H; reflexivity|exact H].
  - cbn [train_loop]. inversion Hnan as [|? ? Hnb Hnq]; subst.
    specialize (IH Hnq).
    destruct (train_batch_nonfinite criterion params step b s Hnb Hp Hstep Htot Hb)
      as [s1 [-> [Hfin Hpos]]]. cbn [bind].
    destruct (IH (step + 1) s1 ltac:(lia) ltac:(lia)) as [s' [-> Hs']].
    exists s'. split; [reflexivity|]. intros _. apply Hs'. right. auto.
Qed.

(** Whatever its arguments, [train] raises nothing but the KeyError of a
    missing key and the ZeroDivisionError of a zero divisor. *)
Lemma fdiv_raises_only (x y : pyfloat) (e : exn) :
  fdiv x y = Err e -> e = ZeroDivisionError.
Proof.
  unfold fdiv. destruct y as [b| | |]; [destruct (Qsign b)|..]; destruct x;
    intro H; inversion H; reflexivity.
Qed.

Lemma dict_get_raises_only (d : dict) (key : string) (e : exn) :
  dict_get d key = Err e -> e = KeyError key.
Proof.
  induction d as [|[k v] d IH]; cbn [dict_get].
  - intro H; inversion H; reflexivity.
  - destruct (String.eqb k key); [discriminate|exact IH].
Qed.

Lemma mod_is_zero_raises_only (step : Z) (v : pyvalue) (e : exn) :
  mod_is_zero step v = Err e -> e = ZeroDivisionError.
Proof.
  destruct v as [b|z|f]; cbn [mod_is_zero].
  - destruct b; intro H; inversion H; reflexivity.
  - destruct (z =? 0); intro H; inversion H; reflexivity.
  - destruct f as [q| | |]; try discriminate.
    destruct (Qsign q); intro H; inversion H; reflexivity.
Qed.

Lemma train_batch_raises_only (criterion : criterion_t Tensor) (params : dict)
    (step : Z) (b : batch Input) (s : train_state W O Sc) (e : exn) :
  train_batch env criterion params step b s = Err e -> train_exception e.
Proof.
  destruct b as [inputs targets]. unfold train_batch.
  destruct (call_net env (ts_net s) inputs) as [[outputs outputs_aux] net1].
  intro H.
  destruct (dict_get params "auxiliary") as [aux|e1] eqn:H1; cbn [bind] in H;
    [|inversion H; subst; apply dict_get_raises_only in H1; subst; left; reflexivity].
  match type of H with bind ?r _ = _ => destruct r as [loss|e2] eqn:H2 end;
    cbn [bind] in H.
  2:{ inversion H; subst. destruct (truthy aux); [|discriminate].
      destruct (dict_get params "auxiliary_weight") as [w|e3] eqn:H3;
        cbn [bind] in H2; [discriminate|].
      inversion H2; subst. apply dict_get_raises_only in H3; subst.
      left; reflexivity. }
  destruct (dict_get params "grad_clip") as [gc|e1] eqn:H3; cbn [bind] in H;
    [|inversion H; subst; apply dict_get_raises_only in H3; subst; left; reflexivity].
  match type of H with
  | (let '(_, _) := ?r in _) = _ => destruct r as [[w' o'] sc']
  end.
  destruct (dict_get params "log_interval") as [li|e1] eqn:H4; cbn [bind] in H;
    [|inversion H; subst; apply dict_get_raises_only in H4; subst; left; reflexivity].
  destruct (mod_is_zero step li) as [report|e1] eqn:H5; cbn [bind] in H;
    [|inversion H; subst; apply mod_is_zero_raises_only in H5; subst;
      right; reflexivity].
  destruct report; cbn [bind] in H; [|discriminate].
  match type of H with bind (bind ?r _) _ = _ => destruct r as [x|e1] eqn:H6 end;
    cbn [bind] in H;
    [|inversion H; subst; apply fdiv_raises_only in H6; subst; right; reflexivity].
  match type of H with bind (bind ?r _) _ = _ => destruct r as [y|e1] eqn:H7 end;
    cbn [bind] in H; [discriminate|].
  inversion H; subst. apply fdiv_raises_only in H7; subst. right; reflexivity.
Qed.

Lemma train_raises_only (train_queue : list (batch Input)) (net : Net W)
    (criterion : criterion_t Tensor) (optimizer : Optimizer O) (params : dict)
    (device : string) (e : exn) :
  train env train_queue net criterion optimizer params device = Err e ->
  train_exception e.
Proof.
  unfold train.
  generalize (mkTrainState (set_training net true) optimizer (GradScaler env)
                           (of_int 0) 0 0) as s0.
  generalize 0 as step.
  induction train_queue as [|b q IH]; intros step s0; cbn [train_loop bind].
  - destruct (fdiv (fmul (Fin 100) (of_int (ts_correct s0))) (of_int (ts_total s0)))
      eqn:H1; cbn [bind].
    + destruct (fdiv (train_loss s0) (of_int (ts_total s0))) eqn:H2; cbn [bind];
        [discriminate|].
      intro H; inversion H; subst. apply fdiv_raises_only in H2. subst.
      right; reflexivity.
    + intro H; inversion H; subst. apply fdiv_raises_only in H1. subst.
      right; reflexivity.
  - destruct (train_batch env criterion params step b s0) as [s1|e1] eqn:Hb;
      cbn [bind].
    + apply IH.
    + intro H; inversion H; subst. eapply train_batch_raises_only, Hb.
Qed.

(** C2, as the code has it: when the loss of every batch of the epoch is
    NaN or infinite, whatever the network outputs, [train] (called with its six arguments, a [params]
    dictionary holding the keys it reads, and a non-empty stream of
    non-empty batches) raises nothing, TrainingDiverged included: it returns
    the epoch's metrics, and the mean loss it returns is not finite. *)
Theorem train_returns_nonfinite_mean_loss
    (train_queue : list (batch Input)) (net : Net W) (criterion : criterion_t Tensor)
    (optimizer : Optimizer O) (params : dict) (device : string) :
  Forall (fun b => forall o, is_finite (criterion o (snd b)) = false) train_queue ->
  params_ready params = true ->
  train_queue <> [] ->
  Forall (fun b => snd b <> []) train_queue ->
  (exists acc obj st,
     train env train_queue net criterion optimizer params device = Ok ((acc, obj), st) /\
     is_finite obj = false) /\
  ~ raises "TrainingDiverged"
      (train env train_queue net criterion optimizer params device).
Proof.
  intros Hnan Hp Hq Hall.
  assert (H : exists acc obj st,
             train env train_queue net criterion optimizer params device
               = Ok ((acc, obj), st) /\ is_finite obj = false).
  { unfold train.
    destruct (train_loop_nonfinite criterion params train_queue Hnan Hp Hall 0
                (mkTrainState (set_training net true) optimizer (GradScaler env)
                              (of_int 0) 0 0))
      as [s [-> Hs]]; cbn [ts_total]; try lia.
    destruct (Hs (or_introl Hq)) as [Hfin Hpos]. cbn [bind].
    change (fmul (Fin 100) (of_int (ts_correct s)))
      with (Fin (Qred (100 * inject_Z (ts_correct s)))).
    rewrite fdiv_Fin_int by lia. cbn [bind].
    destruct (fdiv_int_total (train_loss s) (ts_total s)) as [obj [-> Hobj]]; [lia|].
    cbn [bind]. do 3 eexists. split; [reflexivity|]. apply Hobj, Hfin. }
  split; [exact H|].
  destruct H as [acc [obj [st [-> _]]]]. cbn [raises]. auto.
Qed.

(* ---------------------------------------------------------------- *)
(** *** The epoch loop of [main] *)

Lemma epoch_prologue_ok (a : Args) (st : LoopState W O) (epoch : Z) :
  epochs a <> 0 ->
  exists d,
    fdiv (fmul (drop_path_prob a) (of_int epoch)) (of_int (epochs a)) = Ok d /\
    epoch_prologue a st epoch
      = Ok (mkLoopState (set_droprate (ls_model (scheduler_step st)) d)
                        (ls_optimizer (scheduler_step st))
                        (ls_scheduler (scheduler_step st))).
Proof.
  intro He. unfold epoch_prologue.
  destruct (fdiv_int_total (fmul (drop_path_prob a) (of_int epoch)) (epochs a) He)
    as [d [Hd _]].
  exists d. rewrite Hd. split; reflexivity.
Qed.

(** The call at line 141 passes five arguments. *)
Lemma epoch_body_raises (a : Args) (train_queue : list (batch Input))
    (criterion : criterion_t Tensor) (st : LoopState W O) (epoch : Z) :
  epochs a <> 0 ->
  epoch_body env a train_queue criterion st epoch = Err train_arity_error.
Proof.
  intro He. unfold epoch_body.
  destruct (epoch_prologue_ok a st epoch He) as [d [_ ->]].
  reflexivity.
Qed.

Lemma range_pos (n : Z) :
  1 <= n -> exists rest, range n = 0 :: rest.
Proof.
  intro Hn. unfold range.
  destruct (Z.to_nat n) as [|k] eqn:Hk; [lia|].
  cbn [seq map]. eauto.
Qed.

Lemma epoch_loop_raises (a : Args) (train_queue : list (batch Input))
    (criterion : criterion_t Tensor) (st : LoopState W O) :
  1 <= epochs a ->
  epoch_loop env a train_queue criterion (range (epochs a)) st = Err train_arity_error.
Proof.
  intro He. destruct (range_pos (epochs a) He) as [rest ->].
  cbn [epoch_loop]. rewrite epoch_body_raises by lia. reflexivity.
Qed.

(** C1, at the code: with the micro search space and at least one epoch,
    once the directory, the decoding, the network and the two datasets are
    there, [main] raises TypeError at its first call of [train]; no
    training, no inference, no record. *)
Theorem main_raises_at_first_train_call
    (a : Args) (genotype : Genotype) (w : W) (train_data valid_data : list (Input * Z)) :
  search_space a = "micro" ->
  1 <= epochs a ->
  create_exp_dir env (save_pth a) = Ok tt ->
  micro_decode env (genome a) = Ok genotype ->
  NetworkCIFAR env (init_channels a) CIFAR_CLASSES (layers a) (auxiliary a) genotype
    = Ok w ->
  CIFAR10 env data_root true (cutout a) = Ok train_data ->
  CIFAR10 env data_root false false = Ok valid_data ->
  main env a
    = ([EvCreateExpDir (save_pth a); EvDecode "micro"; EvBuild "micro";
        EvLoadData true; EvLoadData false],
       Err train_arity_error).
Proof.
  intros Hs He Hdir Hdec Hnet Htr Hva.
  unfold main, build_model.
  rewrite Hdir, Hs. cbn [String.eqb Ascii.eqb Bool.eqb call mbind].
  rewrite Hdec. cbn [call mbind]. rewrite Hnet. cbn [call mbind ret app].
  rewrite Htr, Hva. cbn [call mbind lift fdiv of_int Qsign Qnum app].
  rewrite epoch_loop_raises by exact He. reflexivity.
Qed.

(* ---------------------------------------------------------------- *)
(** *** The dispatch on the search space *)

(** C5: for a tag that is neither 'micro' nor 'macro', [main] fails right
    after creating the experiment directory: nothing is decoded, nothing is
    built, and the exception is the NameError 'Unknown search space type'
    of line 71 -- the code's name for the specification's
    UnsupportedSearchSpace. *)
Theorem unknown_search_space_fails_before_decoding (a : Args) :
  search_space a <> "micro" ->
  search_space a <> "macro" ->
  exists e,
    main env a = ([EvCreateExpDir (save_pth a)], Err e) /\
    no_decode_no_build (fst (main env a)) /\
    (create_exp_dir env (save_pth a) = Ok tt ->
     e = NameError "Unknown search space type").
Proof.
  intros Hmi Hma.
  apply String.eqb_neq in Hmi, Hma.
  assert (H : exists e,
             main env a = ([EvCreateExpDir (save_pth a)], Err e) /\
             (create_exp_dir env (save_pth a) = Ok tt ->
              e = NameError "Unknown search space type")).
  { unfold main, build_model. rewrite Hmi, Hma.
    destruct (create_exp_dir env (save_pth a)) as [[]|e0];
      cbn [call mbind raise app].
    - eexists; split; [reflexivity|auto].
    - eexists; split; [reflexivity|discriminate]. }
  destruct H as [e [Hmain He]]. exists e. repeat split; auto.
  rewrite Hmain. cbn [fst]. intros ev [<-|[]]. exact I.
Qed.

(* ---------------------------------------------------------------- *)
(** *** Profiling *)

(** Lines 147-154 always complete, and leave the module in this state. *)
Lemma profile_flops_completes (model : Net W) :
  exists n_flops,
    profile_flops env model
      = Ok (n_flops,
            mkNet (snd (forward env (weights model) false (droprate model) [randn env]))
                  false (droprate model) false false 0 0).
Proof.
  unfold profile_flops, add_flops_counting_methods, set_training, start_flops_count.
  cbn [flops_methods bind weights training droprate flops_hooks flops_sum batch_counter].
  unfold call_net.
  cbn [flops_methods weights training droprate flops_hooks flops_sum batch_counter].
  destruct (forward env (weights model) false (droprate model) [randn env])
    as [out w'].
  unfold compute_average_flops_cost.
  cbn [flops_methods flops_sum batch_counter List.length snd weights training droprate].
  change (0 + Z.of_nat 1) with 1.
  rewrite fdiv_of_int by lia. cbn [bind].
  cbn [fdiv Qsign Qnum bind].
  eexists. reflexivity.
Qed.

(** C6: for a module in evaluation mode that carries nothing of the FLOP
    counter (as [infer] leaves it), and whose forward pass in evaluation
    mode leaves its weights alone, the FLOP estimate of lines 147-154
    completes and the module is afterwards exactly as it was before: same
    weights, mode and drop-path rate, no hooks, no counters. *)
Theorem profile_flops_is_transparent (model : Net W) :
  training model = false ->
  uninstrumented model ->
  snd (forward env (weights model) false (droprate model) [randn env]) = weights model ->
  exists n_flops, profile_flops env model = Ok (n_flops, model).
Proof.
  intros Ht (Hm & Hh & Hs & Hb) Hw.
  destruct (profile_flops_completes model) as [n_flops H].
  exists n_flops. rewrite H, Hw. do 2 f_equal.
  destruct model as [w t d m h fs bc].
  cbn [weights training droprate flops_methods flops_hooks flops_sum batch_counter] in *.
  subst. reflexivity.
Qed.

(* ---------------------------------------------------------------- *)
(** *** The end of [main]: summary file and returned dictionary *)

(** Either a stage before the summary raised, and the file was never
    opened, or [main] ends as the writing of the summary ends. *)
Lemma main_cases (a : Args) :
  (exists tr e, main env a = (tr, Err e) /\ ~ In (EvOpen (log_path a)) tr) \/
  (exists tr0 valid_acc n_params n_flops,
      main env a
        = (tr0 ++ fst (write_summary env (log_path a)),
           match snd (write_summary env (log_path a)) with
           | Ok _ => Ok [ ("valid_acc", valid_acc); ("params", n_params);
                          ("flops", n_flops) ]
           | Err e => Err e
           end)).
Proof.
  unfold main.
  destruct (create_exp_dir env (save_pth a)) as [[]|e0]; cbn [call mbind];
    [|left; do 2 eexists; split; [reflexivity|cbn; intuition discriminate]].
  assert (Hb : (exists tr e, build_model env a = (tr, Err e) /\
                             forall p, ~ In (EvOpen p) tr) \/
               (exists tr gm, build_model env a = (tr, Ok gm) /\
                              forall p, ~ In (EvOpen p) tr)).
  { unfold build_model.
    destruct (search_space a =? "micro")%string.
    - destruct (micro_decode env (genome a)) as [g|e]; cbn [call mbind];
        [|left; do 2 eexists; split; [reflexivity|cbn; intuition discriminate]].
      destruct (NetworkCIFAR env (init_channels a) CIFAR_CLASSES (layers a)
                  (auxiliary a) g) as [w|e]; cbn [call mbind ret app];
        [right|left]; do 2 eexists; (split; [reflexivity|cbn; intuition discriminate]).
    - destruct (search_space a =? "macro")%string.
      + destruct (macro_decode env (genome a)) as [g|e]; cbn [call mbind];
          [|left; do 2 eexists; split; [reflexivity|cbn; intuition discriminate]].
        match goal with
        | |- context [EvoNetwork env ?g ?c ?n ?d] =>
            destruct (EvoNetwork env g c n d) as [w|e]
        end; cbn [call mbind ret app];
          [right|left]; do 2 eexists; (split; [reflexivity|cbn; intuition discriminate]).
      + left. do 2 eexists. split; [reflexivity|cbn; intuition]. }
  destruct Hb as [[trb [e [-> Hno]]]|[trb [[genotype w] [-> Hno]]]]; cbn [mbind].
  { left. do 2 eexists. split; [reflexivity|].
    cbn [app In]. specialize (Hno (log_path a)). intuition discriminate. }
  cbn [lift mbind fdiv of_int Qsign Qnum app].
  destruct (CIFAR10 env data_root true (cutout a)) as [train_data|e]; cbn [call mbind].
  2:{ left. do 2 eexists. split; [reflexivity|].
      cbn [app In]. rewrite in_app_iff. specialize (Hno (log_path a)).
      cbn [In]. intuition discriminate. }
  destruct (CIFAR10 env data_root false false) as [valid_data|e]; cbn [call mbind].
  2:{ left. do 2 eexists. split; [reflexivity|].
      cbn [app In]. rewrite !in_app_iff. specialize (Hno (log_path a)).
      cbn [In]. intuition discriminate. }
  destruct (epoch_loop env a (DataLoader train_data batch_size) (CrossEntropyLoss env)
              (range (epochs a)) (loop_init a (new_module w) (SGD env w)))
    as [st|e]; cbn [lift mbind].
  2:{ left. do 2 eexists. split; [reflexivity|].
      cbn [app In]. rewrite !in_app_iff. specialize (Hno (log_path a)).
      cbn [In]. intuition discriminate. }
  destruct (infer env (DataLoader valid_data batch_size) (ls_model st)
              (CrossEntropyLoss env)) as [[[valid_acc valid_obj] model]|e];
    cbn [lift mbind].
  2:{ left. do 2 eexists. split; [reflexivity|].
      cbn [app In]. rewrite !in_app_iff. specialize (Hno (log_path a)).
      cbn [In]. intuition discriminate. }
  destruct (profile_flops_completes model) as [n_flops ->]. cbn [lift mbind].
  right.
  exists (EvCreateExpDir (save_pth a) :: trb ++ [EvLoadData true; EvLoadData false]).
  eexists valid_acc, _, n_flops.
  destruct (write_summary env (log_path a)) as [trw [[]|e]];
    cbn [mbind ret fst snd app]; rewrite ?app_nil_r, <- ?app_assoc; reflexivity.
Qed.

(** C4, as the code has it: whenever [main] returns, the dictionary it
    returns has exactly the three keys 'valid_acc', 'params' and 'flops',
    in this order. *)
Theorem main_returns_three_fields (a : Args) (tr : list event) (r : record) :
  main env a = (tr, Ok r) ->
  map fst r = ["valid_acc"; "params"; "flops"].
Proof.
  intro Hmain.
  destruct (main_cases a) as [[tr' [e [H _]]]|[tr0 [va [np [nf H]]]]];
    rewrite H in Hmain.
  - discriminate.
  - destruct (snd (write_summary env (log_path a))); inversion Hmain; reflexivity.
Qed.

(** C7, as the code has it: when writing the summary raises, nothing
    catches it.  [main] returns no record, and once it has opened the
    summary file the exception it raises is the one the writing raised. *)
Theorem summary_failure_propagates (a : Args) (e : exn) :
  snd (write_summary env (log_path a)) = Err e ->
  exists tr e',
    main env a = (tr, Err e') /\
    (In (EvOpen (log_path a)) tr -> e' = e).
Proof.
  intro Hw.
  destruct (main_cases a) as [[tr' [e' [H Hno]]]|[tr0 [va [np [nf H]]]]].
  - exists tr', e'. split; [exact H|]. intro Hin. contradiction.
  - rewrite Hw in H. eexists _, e. split; [exact H|auto].
Qed.

(* ---------------------------------------------------------------- *)
(** *** The drop-path rate *)

(** C10, as the code has it: for [0 <= drop_path_prob = p < 1], fewer than
    2^53 epochs and epochs [0 <= e <= e' < epochs], the prologue of epoch
    [e] sets [model.droprate] to the value of
    [drop_path_prob * e / epochs]; this is 0 for [e = 0], does not decrease
    from [e] to [e'], and never exceeds [p].  (Floats are exact rationals
    here; the three properties are the ones that rounding keeps on these
    inputs.  Strictly below [p] is not among them.) *)
Theorem droprate_zero_nondecreasing_bounded
    (a : Args) (st : LoopState W O) (p : Q) (e e' : Z) :
  drop_path_prob a = Fin p ->
  (0 <= p)%Q -> (p < 1)%Q ->
  0 <= e <= e' ->
  e' < epochs a ->
  epochs a < 2 ^ 53 ->
  exists st1 st2 d1 d2,
    fdiv (fmul (drop_path_prob a) (of_int e)) (of_int (epochs a)) = Ok (Fin d1) /\
    epoch_prologue a st e = Ok st1 /\ droprate (ls_model st1) = Some (Fin d1) /\
    fdiv (fmul (drop_path_prob a) (of_int e')) (of_int (epochs a)) = Ok (Fin d2) /\
    epoch_prologue a st e' = Ok st2 /\ droprate (ls_model st2) = Some (Fin d2) /\
    (e = 0 -> d1 = 0%Q) /\
    (0 <= d1)%Q /\ (d1 <= d2)%Q /\ (d2 <= p)%Q.
Proof.
  intros Hp Hp0 Hp1 [He Hee] He' Hbig.
  unfold epoch_prologue. rewrite Hp.
  rewrite !fdiv_fmul_int by lia. cbn [bind].
  do 4 eexists.
  split; [reflexivity|]. split; [reflexivity|]. split; [reflexivity|].
  split; [reflexivity|]. split; [reflexivity|]. split; [reflexivity|].
  assert (HE : (0 < inject_Z (epochs a))%Q) by (apply (inject_Z_lt 0); lia).
  assert (Hx : (0 <= inject_Z e)%Q) by (apply (inject_Z_le 0); lia).
  assert (Hxx : (inject_Z e <= inject_Z e')%Q) by (apply inject_Z_le; lia).
  assert (HxE : (inject_Z e' < inject_Z (epochs a))%Q) by (apply inject_Z_lt; lia).
  split.
  { intros ->. apply (Qred_complete _ 0%Q). rewrite Qred_correct.
    change (inject_Z 0) with 0%Q. rewrite Qmult_0_r.
    unfold Qdiv. apply Qmult_0_l. }
  split.
  { rewrite !Qred_correct. apply Qle_shift_div_l; [exact HE|].
    rewrite Qmult_0_l. apply Qmult_le_0_compat; assumption. }
  split.
  { rewrite !Qred_correct.
    apply Qdiv_le_mono; [exact HE|apply Qmult_le_nonneg_l; assumption]. }
  rewrite !Qred_correct. apply Qle_shift_div_r; [exact HE|].
  apply Qmult_le_nonneg_l; [exact Hp0|apply Qlt_le_weak, HxE].
Qed.

(* ---------------------------------------------------------------- *)
(** *** The learning rate of the first epoch *)

Lemma initial_lr_pos : (0 < Cosine.initial_lr)%R.
Proof. unfold Cosine.initial_lr, learning_rate, Q2R; simpl; lra. Qed.

Lemma cos_first_step_lt_1 (n : Z) :
  1 <= n -> (cos (PI * INR 1 / IZR n) < 1)%R.
Proof.
  intro Hn.
  assert (Hx : (1 <= IZR n)%R) by (apply (IZR_le 1 n); exact Hn).
  assert (Hinv : (0 < / IZR n <= 1)%R).
  { split; [apply Rinv_0_lt_compat; lra|].
    apply Rle_trans with (/ 1)%R; [apply Rinv_le_contravar; lra|].
    rewrite Rinv_1; lra. }
  pose proof PI_RGT_0 as Hpi.
  rewrite <- cos_0. cbn [INR]. unfold Rdiv. rewrite Rmult_1_r.
  apply cos_decreasing_1; try lra; nra.
Qed.

Lemma lr_after_prologue (a : Args) (st st' : LoopState W O) (epoch : Z) :
  epoch_prologue a st epoch = Ok st' ->
  Cosine.lr st'
    = Cosine.CosineAnnealingLR Cosine.initial_lr (T_max (ls_scheduler st))
                               (S (last_epoch (ls_scheduler st))).
Proof.
  unfold epoch_prologue. intro H.
  destruct (fdiv (fmul (drop_path_prob a) (of_int epoch)) (of_int (epochs a)));
    cbn [bind] in H; [|discriminate].
  inversion H; subst. reflexivity.
Qed.

(** Along the schedule the learning rate does not increase, up to
    position [T_max]. *)
Lemma CosineAnnealingLR_nonincreasing (T : Z) (k k' : nat) :
  (k <= k')%nat -> Z.of_nat k' <= T ->
  (Cosine.CosineAnnealingLR Cosine.initial_lr T k'
   <= Cosine.CosineAnnealingLR Cosine.initial_lr T k)%R.
Proof.
  intros Hk HT. pose proof initial_lr_pos as Hlr. pose proof PI_RGT_0 as Hpi.
  unfold Cosine.CosineAnnealingLR, Cosine.eta_min.
  destruct k' as [|j']; [replace k with 0%nat by lia; lra|].
  destruct k as [|j].
  - pose proof (COS_bound (PI * INR (S j') / IZR T)) as [_ Hc]. nra.
  - assert (HT0 : (0 < IZR T)%R) by (apply (IZR_lt 0 T); lia).
    assert (Hfrac : forall i : nat, Z.of_nat i <= T ->
              (0 <= PI * INR i / IZR T <= PI)%R).
    { intros i Hi.
      assert (Hi1 : (0 <= INR i)%R) by apply pos_INR.
      assert (Hi2 : (INR i <= IZR T)%R)
        by (rewrite INR_IZR_INZ; apply IZR_le; exact Hi).
      assert (Hq : (0 <= INR i / IZR T <= 1)%R).
      { split.
        - apply Rmult_le_pos; [exact Hi1|]. apply Rlt_le, Rinv_0_lt_compat, HT0.
        - apply (Rmult_le_reg_r (IZR T)); [exact HT0|]. unfold Rdiv.
          rewrite Rmult_assoc, Rinv_l by lra. lra. }
      replace (PI * INR i / IZR T)%R with (PI * (INR i / IZR T))%R
        by (unfold Rdiv; ring).
      nra. }
    destruct (Nat.eq_dec j j') as [->|Hne]; [lra|].
    assert (Hlt : (INR (S j) < INR (S j'))%R) by (apply lt_INR; lia).
    assert (Hcos : (cos (PI * INR (S j') / IZR T) < cos (PI * INR (S j) / IZR T))%R).
    { apply cos_decreasing_1; try apply Hfrac; try lia.
      unfold Rdiv. apply Rmult_lt_compat_r; [apply Rinv_0_lt_compat, HT0|].
      apply Rmult_lt_compat_l; assumption. }
    nra.
Qed.

(** C3, at the code: [main] steps the scheduler before the first epoch
    trains, so with at least one epoch the learning rate in force during
    epoch 0 is the schedule's value after one step.  It is strictly below
    the configured initial learning rate, which the optimizer held just
    before; with [epochs = 1] it is 0. *)
Theorem first_epoch_lr_below_initial (a : Args) (model : Net W) (buffers : O) :
  1 <= epochs a ->
  Cosine.lr (loop_init a model buffers) = Cosine.initial_lr /\
  exists st,
    epoch_prologue a (loop_init a model buffers) 0 = Ok st /\
    (Cosine.lr st < Cosine.initial_lr)%R /\
    (epochs a = 1 -> Cosine.lr st = 0%R).
Proof.
  intro He. split; [reflexivity|].
  destruct (epoch_prologue_ok a (loop_init a model buffers) 0 ltac:(lia))
    as [d [_ Hst]].
  eexists. split; [exact Hst|].
  rewrite (lr_after_prologue _ _ _ _ Hst).
  cbn [loop_init ls_scheduler T_max last_epoch].
  unfold Cosine.CosineAnnealingLR, Cosine.eta_min.
  pose proof initial_lr_pos as Hlr.
  split.
  - pose proof (cos_first_step_lt_1 (epochs a) He) as Hcos. nra.
  - intros ->.
    replace (PI * INR 1 / 1)%R with PI by (cbn [INR]; field).
    rewrite cos_PI. field.
Qed.

End HarnessFacts.

(* ================================================================== *)
(** ** The statements at concrete inputs *)

(** C1 at the scenario: micro genome, [epochs = 1], [init_channels = 16],
    [auxiliary = False]. *)
Lemma main_raises_at_first_train_call_witness :
  main (Toy.env true) (Toy.args 1 "micro")
    = ([EvCreateExpDir "search/Design_1"; EvDecode "micro"; EvBuild "micro";
        EvLoadData true; EvLoadData false],
       Err train_arity_error).
Proof.
  apply (main_raises_at_first_train_call (Toy.env true) (Toy.args 1 "micro")
           Toy.micro_genome 0 (Toy.dataset true) (Toy.dataset false));
    solve [reflexivity | cbn; lia].
Defined.

(** C2 fails as stated: with a NaN loss on each of the two batches, [train]
    returns metrics whose mean loss is NaN and raises no TrainingDiverged. *)
Lemma train_nan_on_every_batch_returns_metrics :
  (forall b, In b Toy.queue -> forall o, Toy.nan_criterion o (snd b) = NaN) /\
  (exists st,
     train (Toy.env true) Toy.queue (new_module 0) Toy.nan_criterion
           (mkOptimizer tt 0) Toy.params "cuda"
       = Ok ((Fin 100, NaN), st)) /\
  ~ raises "TrainingDiverged"
      (train (Toy.env true) Toy.queue (new_module 0) Toy.nan_criterion
             (mkOptimizer tt 0) Toy.params "cuda").
Proof.
  split; [reflexivity|]. split.
  - eexists. vm_compute. reflexivity.
  - vm_compute. auto.
Qed.

(** C2 as amended, on the same call. *)
Lemma train_returns_nonfinite_mean_loss_witness :
  (exists acc obj st,
     train (Toy.env true) Toy.queue (new_module 0) Toy.nan_criterion
           (mkOptimizer tt 0) Toy.params "cuda" = Ok ((acc, obj), st) /\
     is_finite obj = false) /\
  ~ raises "TrainingDiverged"
      (train (Toy.env true) Toy.queue (new_module 0) Toy.nan_criterion
             (mkOptimizer tt 0) Toy.params "cuda").
Proof.
  apply (train_returns_nonfinite_mean_loss (Toy.env true)).
  - vm_compute. repeat constructor.
  - reflexivity.
  - vm_compute. discriminate.
  - vm_compute. repeat constructor; discriminate.
Defined.

(** C3 at [epochs = 1]. *)
Lemma first_epoch_lr_below_initial_witness :
  Cosine.lr (Toy.loop0 (Toy.args 1 "micro")) = Cosine.initial_lr /\
  exists st,
    epoch_prologue (Toy.args 1 "micro") (Toy.loop0 (Toy.args 1 "micro")) 0 = Ok st /\
    (Cosine.lr st < Cosine.initial_lr)%R /\
    (epochs (Toy.args 1 "micro") = 1 -> Cosine.lr st = 0%R).
Proof.
  apply (first_epoch_lr_below_initial (Toy.args 1 "micro") (new_module 0) tt).
  cbn. lia.
Defined.

(** C4 fails as stated: a run that returns ([epochs = 0]) returns three
    fields, not the six of the specification's record. *)
Lemma main_record_has_three_fields_not_six :
  exists tr r,
    main (Toy.env true) (Toy.args 0 "micro") = (tr, Ok r) /\
    map fst r = ["valid_acc"; "params"; "flops"] /\
    ~ has_exactly_fields r ResultRecord_fields.
Proof.
  do 2 eexists. split; [vm_compute; reflexivity|].
  split; [reflexivity|].
  intro H. apply Permutation_length in H. discriminate H.
Qed.

(** C4 as amended, on the same run. *)
Lemma main_returns_three_fields_witness :
  map fst [ ("valid_acc", Fin (200 # 3)); ("params", Fin (7 # 15625));
            ("flops", Fin (5 # 2)) ]
    = ["valid_acc"; "params"; "flops"].
Proof.
  apply (main_returns_three_fields (Toy.env true) (Toy.args 0 "micro")
           [EvCreateExpDir "search/Design_1"; EvDecode "micro"; EvBuild "micro";
            EvLoadData true; EvLoadData false; EvOpen "search/Design_1/log.txt";
            EvWrite "Genome"; EvWrite "Architecture"; EvWrite "param size";
            EvWrite "flops"; EvWrite "valid_acc"; EvClose "search/Design_1/log.txt"]).
  vm_compute. reflexivity.
Defined.

(** C5 at the tag 'nano'. *)
Lemma unknown_search_space_fails_before_decoding_witness :
  exists e,
    main (Toy.env true) (Toy.args 1 "nano") = ([EvCreateExpDir "search/Design_1"], Err e) /\
    no_decode_no_build (fst (main (Toy.env true) (Toy.args 1 "nano"))) /\
    (create_exp_dir (Toy.env true) "search/Design_1" = Ok tt ->
     e = NameError "Unknown search space type").
Proof.
  apply (unknown_search_space_fails_before_decoding (Toy.env true) (Toy.args 1 "nano"));
    cbn; discriminate.
Defined.

(** C6 on the module [infer] leaves in the run with [epochs = 0]. *)
Lemma profile_flops_is_transparent_witness :
  exists n_flops,
    profile_flops (Toy.env true) (set_training (new_module 0) false)
      = Ok (n_flops, set_training (new_module 0) false).
Proof.
  apply (profile_flops_is_transparent (Toy.env true) (set_training (new_module 0) false)).
  - reflexivity.
  - repeat split.
  - reflexivity.
Defined.

(** C7 fails as stated: when the summary file cannot be opened, [main]
    raises the OSError and returns no record. *)
Lemma main_raises_when_summary_cannot_be_opened :
  snd (write_summary (Toy.env false) (log_path (Toy.args 0 "micro")))
    = Err (OSError "search/Design_1/log.txt") /\
  snd (main (Toy.env false) (Toy.args 0 "micro"))
    = Err (OSError "search/Design_1/log.txt").
Proof. split; vm_compute; reflexivity. Qed.

(** C7 as amended, on the same run. *)
Lemma summary_failure_propagates_witness :
  exists tr e',
    main (Toy.env false) (Toy.args 0 "micro") = (tr, Err e') /\
    (In (EvOpen (log_path (Toy.args 0 "micro"))) tr ->
     e' = OSError "search/Design_1/log.txt").
Proof.
  apply (summary_failure_propagates (Toy.env false) (Toy.args 0 "micro")).
  vm_compute. reflexivity.
Defined.

(** C8 on the validation stream of three examples. *)
Lemma infer_accuracy_in_range_and_total_exact_witness :
  is_total (infer_loop (Toy.env true) Toy.loss Toy.valid_queue (new_module 0))
    = stream_examples Toy.valid_queue /\
  exists acc obj,
    infer (Toy.env true) Toy.valid_queue (new_module 0) Toy.loss
      = Ok ((Fin acc, obj),
            is_net (infer_loop (Toy.env true) Toy.loss Toy.valid_queue (new_module 0))) /\
    (0 <= acc <= 100)%Q.
Proof.
  apply (infer_accuracy_in_range_and_total_exact (Toy.env true)).
  - vm_compute. discriminate.
  - vm_compute. repeat constructor; discriminate.
Defined.

(** C10 fails as stated: with the default [drop_path_prob = 0.0] the rate
    set for epoch 0 is 0, which is not below 0. *)
Lemma droprate_not_strictly_below_zero_prob :
  exists st d,
    epoch_prologue (Toy.args 1 "micro") (Toy.loop0 (Toy.args 1 "micro")) 0 = Ok st /\
    droprate (ls_model st) = Some d /\
    ~ flt d (drop_path_prob (Toy.args 1 "micro")).
Proof.
  do 2 eexists. split; [vm_compute; reflexivity|].
  split; [reflexivity|]. cbn. intro H. discriminate H.
Qed.

(** C10 as amended, at [drop_path_prob = 0.3], 20 epochs, epochs 5 and 10. *)
Lemma droprate_zero_nondecreasing_bounded_witness :
  exists st1 st2 d1 d2,
    fdiv (fmul (drop_path_prob (Toy.args_drop 20 (3 # 10))) (of_int 5))
         (of_int (epochs (Toy.args_drop 20 (3 # 10)))) = Ok (Fin d1) /\
    epoch_prologue (Toy.args_drop 20 (3 # 10)) (Toy.loop0 (Toy.args_drop 20 (3 # 10))) 5
      = Ok st1 /\
    droprate (ls_model st1) = Some (Fin d1) /\
    fdiv (fmul (drop_path_prob (Toy.args_drop 20 (3 # 10))) (of_int 10))
         (of_int (epochs (Toy.args_drop 20 (3 # 10)))) = Ok (Fin d2) /\
    epoch_prologue (Toy.args_drop 20 (3 # 10)) (Toy.loop0 (Toy.args_drop 20 (3 # 10))) 10
      = Ok st2 /\
    droprate (ls_model st2) = Some (Fin d2) /\
    (5 = 0 -> d1 = 0%Q) /\
    (0 <= d1)%Q /\ (d1 <= d2)%Q /\ (d2 <= 3 # 10)%Q.
Proof.
  apply (droprate_zero_nondecreasing_bounded (Toy.args_drop 20 (3 # 10))
           (Toy.loop0 (Toy.args_drop 20 (3 # 10))) (3 # 10) 5 10).
  - reflexivity.
  - vm_compute. discriminate.
  - vm_compute. reflexivity.
  - lia.
  - cbn. lia.
  - cbn. lia.
Defined.

(* ================================================================== *)
(** ** Further facts about [train], [infer] and [main] *)

Section HarnessMore.

Context {Genotype W O Sc Input Tensor : Type}.
Variable env : Env Genotype W O Sc Input Tensor.

(* ---------------------------------------------------------------- *)
(** *** What a forward pass leaves alone *)

Lemma call_net_frame (n : Net W) (inputs : list Input) :
  let n' := snd (call_net env n inputs) in
  training n' = training n /\
  droprate n' = droprate n /\
  flops_methods n' = flops_methods n /\
  flops_hooks n' = flops_hooks n /\
  (flops_hooks n = false ->
   flops_sum n' = flops_sum n /\ batch_counter n' = batch_counter n).
Proof.
  unfold call_net.
  destruct (forward env (weights n) (training n) (droprate n) inputs) as [out w'].
  destruct (flops_hooks n) eqn:Hh; cbn; rewrite ?Hh; repeat split; auto; discriminate.
Qed.

(** What one iteration of [train] changes, read off a successful step. *)
Lemma train_batch_frame (criterion : criterion_t Tensor) (params : dict)
    (step : Z) (b : batch Input) (s s' : train_state W O Sc) :
  train_batch env criterion params step b s = Ok s' ->
  training (ts_net s') = training (ts_net s) /\
  droprate (ts_net s') = droprate (ts_net s) /\
  flops_methods (ts_net s') = flops_methods (ts_net s) /\
  flops_hooks (ts_net s') = flops_hooks (ts_net s) /\
  lr_index (ts_optimizer s') = lr_index (ts_optimizer s) /\
  ts_total s' = ts_total s + Z.of_nat (List.length (snd b)) /\
  ts_correct s <= ts_correct s' <= ts_correct s + Z.of_nat (List.length (snd b)).
Proof.
  destruct b as [inputs targets]. unfold train_batch.
  pose proof (call_net_frame (ts_net s) inputs) as Hf.
  destruct (call_net env (ts_net s) inputs) as [[outputs outputs_aux] net1].
  cbn [snd] in Hf. destruct Hf as (Ht & Hd & Hm & Hh & _).
  intro H.
  destruct (dict_get params "auxiliary") as [aux|]; cbn [bind] in H; [|discriminate].
  match type of H with bind ?r _ = _ => destruct r as [loss|] end;
    cbn [bind] in H; [|discriminate].
  destruct (dict_get params "grad_clip") as [gc|]; cbn [bind] in H; [|discriminate].
  match type of H with
  | (let '(_, _) := ?r in _) = _ => destruct r as [[w' o'] sc']
  end.
  destruct (dict_get params "log_interval") as [li|]; cbn [bind] in H; [|discriminate].
  destruct (mod_is_zero step li) as [report|]; cbn [bind] in H; [|discriminate].
  match type of H with bind ?r _ = _ => destruct r as [[]|] end;
    cbn [bind] in H; [|discriminate].
  inversion H; subst s'; clear H.
  cbn [ts_net ts_optimizer ts_total ts_correct set_weights training droprate
       flops_methods flops_hooks lr_index snd].
  pose proof (eq_sum_bounds (max1 env outputs) targets).
  repeat split; auto; lia.
Qed.

Lemma train_loop_frame (criterion : criterion_t Tensor) (params : dict)
    (queue : list (batch Input)) :
  forall (step : Z) (s s' : train_state W O Sc),
    train_loop env criterion params step queue s = Ok s' ->
    training (ts_net s') = training (ts_net s) /\
    droprate (ts_net s') = droprate (ts_net s) /\
    flops_methods (ts_net s') = flops_methods (ts_net s) /\
    flops_hooks (ts_net s') = flops_hooks (ts_net s) /\
    lr_index (ts_optimizer s') = lr_index (ts_optimizer s) /\
    ts_total s' = ts_total s + stream_examples queue /\
    (0 <= ts_correct s <= ts_total s -> 0 <= ts_correct s' <= ts_total s').
Proof.
  induction queue as [|b queue IH]; intros step s s' H; cbn [train_loop] in H.
  - inversion H; subst. change (stream_examples (@nil (batch Input))) with 0.
    repeat split; auto; lia.
  - destruct (train_batch env criterion params step b s) as [s1|] eqn:Hb;
      cbn [bind] in H; [|discriminate].
    apply train_batch_frame in Hb. apply IH in H.
    change (stream_examples (b :: queue))
      with (Z.of_nat (List.length (snd b)) + stream_examples queue).
    destruct Hb as (? & ? & ? & ? & ? & ? & ?).
    destruct H as (? & ? & ? & ? & ? & ? & Hc).
    repeat split; try congruence; try lia; intro; apply Hc; lia.
Qed.

(** X1: when [train] returns, it has left the network in training mode, and
    it has not touched the drop-path rate, the FLOP instrumentation or the
    learning rate of the optimizer. *)
Theorem train_leaves_schedule_and_droprate
    (train_queue : list (batch Input)) (net net' : Net W)
    (criterion : criterion_t Tensor) (optimizer optimizer' : Optimizer O)
    (params : dict) (device : string) (metrics : pyfloat * pyfloat) :
  train env train_queue net criterion optimizer params device
    = Ok (metrics, (net', optimizer')) ->
  training net' = true /\
  droprate net' = droprate net /\
  flops_methods net' = flops_methods net /\
  flops_hooks net' = flops_hooks net /\
  lr_index optimizer' = lr_index optimizer.
Proof.
  unfold train. intro H.
  destruct (train_loop env criterion params 0 train_queue
              (mkTrainState (set_training net true) optimizer (GradScaler env)
                            (of_int 0) 0 0)) as [s|] eqn:Hl;
    cbn [bind] in H; [|discriminate].
  apply train_loop_frame in Hl.
  cbn [ts_net ts_optimizer set_training training droprate flops_methods flops_hooks]
    in Hl.
  destruct Hl as (? & ? & ? & ? & ? & _).
  destruct (fdiv (fmul (Fin 100) (of_int (ts_correct s))) (of_int (ts_total s)));
    cbn [bind] in H; [|discriminate].
  destruct (fdiv (train_loss s) (of_int (ts_total s))); cbn [bind] in H; [|discriminate].
  inversion H; subst. auto.
Qed.

(* ---------------------------------------------------------------- *)
(** *** The progress report of [train] (lines 206-207) *)

(** With a non-zero interval and at least one example counted, the report
    raises nothing and the step goes on as if it were not there. *)
Lemma report_noop {X : Type} (step : Z) (li : pyvalue) (tl : pyfloat)
    (correct total : Z) (k : result X) :
  truthy li = true -> 0 <= step -> 0 < total ->
  bind (mod_is_zero step li)
       (fun report =>
          bind (if report
                then bind (fdiv tl (of_int (step + 1)))
                       (fun _ => bind (fdiv (fmul (Fin 100) (of_int correct)) (of_int total))
                                      (fun _ => Ok tt))
                else Ok tt)
               (fun _ => k)) = k.
Proof.
  intros Hli Hstep Htot.
  destruct (mod_is_zero_ok step li Hli) as [report ->]. cbn [bind].
  destruct report; [|reflexivity].
  destruct (fdiv_int_total tl (step + 1)) as [x [-> _]]; [lia|]. cbn [bind].
  destruct (fdiv_int_total (fmul (Fin 100) (of_int correct)) total) as [y [-> _]];
    [lia|]. reflexivity.
Qed.

Lemma train_batch_ok (criterion : criterion_t Tensor) (params : dict)
    (step : Z) (b : batch Input) (s : train_state W O Sc) :
  params_ready params = true ->
  0 <= step -> 0 <= ts_total s -> snd b <> [] ->
  exists s', train_batch env criterion params step b s = Ok s'.
Proof.
  intros Hp Hstep Htot Hb.
  destruct b as [inputs targets]. cbn [snd] in Hb. unfold train_batch.
  destruct (call_net env (ts_net s) inputs) as [[outputs outputs_aux] net1].
  unfold params_ready in Hp.
  destruct (dict_get params "auxiliary") as [aux|]; [|discriminate].
  destruct (dict_get params "grad_clip") as [gc|]; [|discriminate].
  destruct (dict_get params "log_interval") as [li|]; [|discriminate].
  apply andb_true_iff in Hp. destruct Hp as [Hw Hli]. cbn [bind].
  match goal with
  | |- exists s', bind ?r _ = _ => assert (Hloss : exists loss, r = Ok loss)
  end.
  { destruct (truthy aux); [|eauto].
    destruct (dict_get params "auxiliary_weight"); [cbn [bind]; eauto|discriminate]. }
  destruct Hloss as [loss ->]. cbn [bind].
  match goal with
  | |- exists s', (let '(_, _) := ?r in _) = _ => destruct r as [[w' o'] sc']
  end.
  assert (Hlen : 0 < Z.of_nat (List.length targets))
    by (destruct targets; [congruence|cbn [List.length]; lia]).
  rewrite report_noop; [eauto|exact Hli|exact Hstep|lia].
Qed.

Lemma train_loop_ok (criterion : criterion_t Tensor) (params : dict)
    (queue : list (batch Input)) :
  params_ready params = true ->
  Forall (fun b => snd b <> []) queue ->
  forall (step : Z) (s : train_state W O Sc),
    0 <= step -> 0 <= ts_total s ->
    exists s', train_loop env criterion params step queue s = Ok s'.
Proof.
  intros Hp Hall. induction Hall as [|b queue Hb Hall IH]; intros step s Hstep Htot.
  - cbn [train_loop]. eauto.
  - cbn [train_loop].
    destruct (train_batch_ok criterion params step b s Hp Hstep Htot Hb) as [s1 H1].
    rewrite H1. cbn [bind].
    apply train_batch_frame in H1. apply IH; lia.
Qed.

(** X2: with a [params] dictionary that holds the keys [train] reads and a
    non-zero [log_interval], on a non-empty stream of non-empty batches,
    [train] returns; its counter [total] ends at the number of examples of
    the stream and the accuracy it returns is between 0 and 100. *)
Theorem train_accuracy_in_range
    (train_queue : list (batch Input)) (net : Net W) (criterion : criterion_t Tensor)
    (optimizer : Optimizer O) (params : dict) (device : string) :
  params_ready params = true ->
  train_queue <> [] ->
  Forall (fun b => snd b <> []) train_queue ->
  exists s acc obj st,
    train_loop env criterion params 0 train_queue
               (mkTrainState (set_training net true) optimizer (GradScaler env)
                             (of_int 0) 0 0) = Ok s /\
    ts_total s = stream_examples train_queue /\
    train env train_queue net criterion optimizer params device
      = Ok ((Fin acc, obj), st) /\
    (0 <= acc <= 100)%Q.
Proof.
  intros Hp Hq Hall.
  pose proof (stream_examples_pos train_queue Hq Hall) as Hpos.
  unfold train.
  destruct (train_loop_ok criterion params train_queue Hp Hall 0
              (mkTrainState (set_training net true) optimizer (GradScaler env)
                            (of_int 0) 0 0)) as [s Hs]; cbn [ts_total]; try lia.
  rewrite Hs. cbn [bind].
  pose proof (train_loop_frame _ _ _ _ _ _ Hs) as Hf.
  cbn [ts_total ts_correct] in Hf. destruct Hf as (_ & _ & _ & _ & _ & Ht & Hc).
  specialize (Hc ltac:(lia)).
  destruct (percent_bounds (ts_correct s) (ts_total s)) as [acc [-> Hb]]; [lia|lia|].
  destruct (fdiv_int_total (train_loss s) (ts_total s)) as [obj [-> _]]; [lia|].
  cbn [bind]. exists s, acc, obj. eexists. repeat split; try reflexivity; try lia;
    apply Hb.
Qed.

(** X3: the progress report changes nothing.  Two [params] dictionaries that
    agree on 'auxiliary', 'auxiliary_weight' and 'grad_clip' and both hold a
    non-zero [log_interval] make [train] return the same metrics, network
    and optimizer on a stream of non-empty batches. *)
Theorem train_report_interval_irrelevant
    (train_queue : list (batch Input)) (net : Net W) (criterion : criterion_t Tensor)
    (optimizer : Optimizer O) (p1 p2 : dict) (l1 l2 : pyvalue) (device : string) :
  same_training_keys p1 p2 ->
  dict_get p1 "log_interval" = Ok l1 -> truthy l1 = true ->
  dict_get p2 "log_interval" = Ok l2 -> truthy l2 = true ->
  Forall (fun b => snd b <> []) train_queue ->
  train env train_queue net criterion optimizer p1 device
    = train env train_queue net criterion optimizer p2 device.
Proof.
  intros (Ha & Hw & Hg) H1 Ht1 H2 Ht2 Hall.
  assert (Hstep : forall (b : batch Input) step (s : train_state W O Sc),
             snd b <> [] -> 0 <= step -> 0 <= ts_total s ->
             train_batch env criterion p1 step b s
               = train_batch env criterion p2 step b s).
  { intros [inputs targets] step s Hb Hstep Htot. cbn [snd] in Hb.
    unfold train_batch.
    destruct (call_net env (ts_net s) inputs) as [[outputs outputs_aux] net1].
    rewrite Ha, Hw, Hg, H1, H2.
    destruct (dict_get p2 "auxiliary") as [aux|]; cbn [bind]; [|reflexivity].
    match goal with |- bind ?r _ = _ => destruct r as [loss|] end;
      cbn [bind]; [|reflexivity].
    destruct (dict_get p2 "grad_clip") as [gc|]; cbn [bind]; [|reflexivity].
    match goal with
    | |- (let '(_, _) := ?r in _) = _ => destruct r as [[w' o'] sc']
    end.
    assert (Hlen : 0 < Z.of_nat (List.length targets))
      by (destruct targets; [congruence|cbn [List.length]; lia]).
    rewrite !report_noop by (assumption || lia). reflexivity. }
  unfold train.
  assert (Hloop : forall step (s : train_state W O Sc),
             0 <= step -> 0 <= ts_total s ->
             train_loop env criterion p1 step train_queue s
               = train_loop env criterion p2 step train_queue s).
  { induction Hall as [|b queue Hb Hall IH]; intros step s Hs Ht; [reflexivity|].
    cbn [train_loop]. rewrite (Hstep b step s Hb Hs Ht).
    destruct (train_batch env criterion p2 step b s) as [s1|] eqn:Hb1;
      cbn [bind]; [|reflexivity].
    apply train_batch_frame in Hb1. apply IH; lia. }
  rewrite Hloop by (cbn [ts_total]; lia). reflexivity.
Qed.

(* ---------------------------------------------------------------- *)
(** *** The exceptions of [train] *)

(** The first batch decides: an exception of the first step is the
    exception of [train]. *)
Lemma train_first_batch_raises (criterion : criterion_t Tensor) (params : dict)
    (b : batch Input) (rest : list (batch Input)) (net : Net W)
    (optimizer : Optimizer O) (device : string) (e : exn) :
  train_batch env criterion params 0 b
    (mkTrainState (set_training net true) optimizer (GradScaler env) (of_int 0) 0 0)
    = Err e ->
  train env (b :: rest) net criterion optimizer params device = Err e.
Proof. intro H. unfold train. cbn [train_loop]. rewrite H. reflexivity. Qed.

(** X5: the dictionary [main] builds at lines 54-59 has 'report_freq' where
    [train] reads 'log_interval': called with it on a non-empty stream,
    even with all six arguments, [train] raises KeyError('log_interval') on
    the first batch. *)
Theorem train_with_main_params_raises_KeyError
    (a : Args) (train_queue : list (batch Input)) (net : Net W)
    (criterion : criterion_t Tensor) (optimizer : Optimizer O) (device : string) :
  train_queue <> [] ->
  train env train_queue net criterion optimizer (train_params a) device
    = Err (KeyError "log_interval").
Proof.
  intro Hq. destruct train_queue as [|[inputs targets] rest]; [congruence|].
  apply train_first_batch_raises. unfold train_batch.
  destruct (call_net env (ts_net _) inputs) as [[outputs outputs_aux] net1].
  change (dict_get (train_params a) "auxiliary") with (Ok (VBool (auxiliary a))).
  change (dict_get (train_params a) "auxiliary_weight")
    with (Ok (VFloat auxiliary_weight)).
  change (dict_get (train_params a) "grad_clip") with (Ok (VInt grad_clip)).
  change (dict_get (train_params a) "log_interval")
    with (@Err pyvalue (KeyError "log_interval")).
  cbn [bind truthy]. destruct (auxiliary a); cbn [bind];
    match goal with
    | |- (let '(_, _) := ?r in _) = _ => destruct r as [[w' o'] sc']
    end; reflexivity.
Qed.

(** X6: with the other keys in place and a zero [log_interval] (0, 0.0 or
    False), [train] raises ZeroDivisionError at [step % log_interval] on the
    first batch of a non-empty stream. *)
Theorem train_zero_log_interval_raises
    (train_queue : list (batch Input)) (net : Net W) (criterion : criterion_t Tensor)
    (optimizer : Optimizer O) (params : dict) (li : pyvalue) (device : string) :
  step_keys_ready params = true ->
  dict_get params "log_interval" = Ok li ->
  truthy li = false ->
  train_queue <> [] ->
  train env train_queue net criterion optimizer params device = Err ZeroDivisionError.
Proof.
  intros Hk Hli Hz Hq. destruct train_queue as [|[inputs targets] rest]; [congruence|].
  apply train_first_batch_raises. unfold train_batch.
  destruct (call_net env (ts_net _) inputs) as [[outputs outputs_aux] net1].
  unfold step_keys_ready in Hk. rewrite Hli.
  destruct (dict_get params "auxiliary") as [aux|]; [|discriminate].
  destruct (dict_get params "grad_clip") as [gc|]; [|discriminate].
  cbn [bind].
  match goal with
  | |- bind ?r _ = _ => assert (Hloss : exists loss, r = Ok loss)
  end.
  { destruct (truthy aux); [|eauto].
    destruct (dict_get params "auxiliary_weight"); [cbn [bind]; eauto|discriminate]. }
  destruct Hloss as [loss ->]. cbn [bind].
  match goal with
  | |- (let '(_, _) := ?r in _) = _ => destruct r as [[w' o'] sc']
  end.
  assert (Hmod : mod_is_zero 0 li = Err ZeroDivisionError).
  { destruct li as [b|z|f]; cbn [truthy mod_is_zero] in *.
    - subst b. reflexivity.
    - apply negb_false_iff in Hz. rewrite Hz. reflexivity.
    - destruct f as [q| | |]; try discriminate.
      apply negb_false_iff, Qeq_bool_iff, Qsign_Eq_iff in Hz. rewrite Hz. reflexivity. }
  rewrite Hmod. reflexivity.
Qed.

(** X7: when 'auxiliary' is true and 'auxiliary_weight' is missing, [train]
    raises KeyError('auxiliary_weight') on the first batch of a non-empty
    stream. *)
Theorem train_auxiliary_without_weight_raises
    (train_queue : list (batch Input)) (net : Net W) (criterion : criterion_t Tensor)
    (optimizer : Optimizer O) (params : dict) (aux : pyvalue) (device : string) :
  dict_get params "auxiliary" = Ok aux ->
  truthy aux = true ->
  is_ok (dict_get params "auxiliary_weight") = false ->
  train_queue <> [] ->
  train env train_queue net criterion optimizer params device
    = Err (KeyError "auxiliary_weight").
Proof.
  intros Ha Ht Hw Hq. destruct train_queue as [|[inputs targets] rest]; [congruence|].
  apply train_first_batch_raises. unfold train_batch.
  destruct (call_net env (ts_net _) inputs) as [[outputs outputs_aux] net1].
  rewrite Ha. cbn [bind]. rewrite Ht.
  destruct (dict_get params "auxiliary_weight") as [w|e] eqn:He; [discriminate|].
  apply dict_get_raises_only in He. subst e. reflexivity.
Qed.

(* ---------------------------------------------------------------- *)
(** *** What [infer] leaves alone *)

Lemma infer_fold_frame (criterion : criterion_t Tensor) (q : list (batch Input)) :
  forall s : infer_state W,
    let s' := fold_left (infer_batch env criterion) q s in
    training (is_net s') = training (is_net s) /\
    droprate (is_net s') = droprate (is_net s) /\
    flops_methods (is_net s') = flops_methods (is_net s) /\
    flops_hooks (is_net s') = flops_hooks (is_net s) /\
    (flops_hooks (is_net s) = false ->
     flops_sum (is_net s') = flops_sum (is_net s) /\
     batch_counter (is_net s') = batch_counter (is_net s)).
Proof.
  induction q as [|b q IH]; intro s; cbn [fold_left].
  - cbn zeta. repeat split; auto.
  - specialize (IH (infer_batch env criterion s b)). cbn zeta in IH.
    assert (Hb : is_net (infer_batch env criterion s b)
                 = snd (call_net env (is_net s) (fst b))).
    { destruct b as [inputs targets]. unfold infer_batch. cbn [fst].
      destruct (call_net env (is_net s) inputs) as [[outputs aux] net1]. reflexivity. }
    pose proof (call_net_frame (is_net s) (fst b)) as Hf. cbn zeta in Hf.
    rewrite <- Hb in Hf.
    destruct IH as (I1 & I2 & I3 & I4 & I5). destruct Hf as (F1 & F2 & F3 & F4 & F5).
    cbn zeta.
    split; [congruence|]. split; [congruence|].
    split; [congruence|]. split; [congruence|].
    intro Hh. destruct (F5 Hh) as [F6 F7].
    destruct (I5 ltac:(congruence)) as [I6 I7]. split; congruence.
Qed.

(** X8: when [infer] returns, it has left the network in evaluation mode
    and has not touched its drop-path rate or its FLOP instrumentation; with
    no hooks attached the FLOP counters are as they were. *)
Theorem infer_leaves_network_in_eval_mode
    (valid_queue : list (batch Input)) (net net' : Net W)
    (criterion : criterion_t Tensor) (metrics : pyfloat * pyfloat) :
  infer env valid_queue net criterion = Ok (metrics, net') ->
  training net' = false /\
  droprate net' = droprate net /\
  flops_methods net' = flops_methods net /\
  flops_hooks net' = flops_hooks net /\
  (flops_hooks net = false ->
   flops_sum net' = flops_sum net /\ batch_counter net' = batch_counter net).
Proof.
  unfold infer, infer_loop. intro H.
  pose proof (infer_fold_frame criterion valid_queue
                (mkInferState (set_training net false) (of_int 0) 0 0)) as Hf.
  cbn zeta in Hf.
  cbn [is_net set_training training droprate flops_methods flops_hooks flops_sum
       batch_counter] in Hf.
  match type of H with bind ?r _ = _ => destruct r end; cbn [bind] in H; [|discriminate].
  match type of H with bind ?r _ = _ => destruct r end; cbn [bind] in H; [|discriminate].
  inversion H; subst. exact Hf.
Qed.

(** [infer] on a stream that holds at least one example. *)
Lemma infer_ok_of_examples (valid_queue : list (batch Input)) (net : Net W)
    (criterion : criterion_t Tensor) :
  0 < stream_examples valid_queue ->
  is_total (infer_loop env criterion valid_queue net) = stream_examples valid_queue /\
  exists acc obj,
    infer env valid_queue net criterion
      = Ok ((Fin acc, obj), is_net (infer_loop env criterion valid_queue net)) /\
    (0 <= acc <= 100)%Q.
Proof.
  intro Hpos. unfold infer.
  pose proof (infer_fold_counts env criterion valid_queue
                (mkInferState (set_training net false) (of_int 0) 0 0)) as [Ht Hc].
  cbn [is_total is_correct] in Ht, Hc.
  fold (infer_loop env criterion valid_queue net) in Ht, Hc.
  specialize (Hc ltac:(lia)). split; [lia|].
  destruct (percent_bounds (is_correct (infer_loop env criterion valid_queue net))
              (is_total (infer_loop env criterion valid_queue net)))
    as [acc [Hacc Hb]]; [lia|lia|].
  destruct (fdiv_int_total (test_loss (infer_loop env criterion valid_queue net))
              (is_total (infer_loop env criterion valid_queue net)))
    as [obj [Hobj _]]; [lia|].
  exists acc, obj. rewrite Hacc, Hobj. cbn [bind]. auto.
Qed.

(** X9: over the stream a data loader with a positive batch size makes of a
    non-empty dataset (lines 129-132, 144), [infer] returns; it has counted
    every example of the dataset once and its accuracy is between 0 and
    100. *)
Theorem infer_over_DataLoader
    (data : list (Input * Z)) (n : nat) (net : Net W) (criterion : criterion_t Tensor) :
  (0 < n)%nat ->
  data <> [] ->
  is_total (infer_loop env criterion (DataLoader data n) net)
    = Z.of_nat (List.length data) /\
  exists acc obj net',
    infer env (DataLoader data n) net criterion = Ok ((Fin acc, obj), net') /\
    (0 <= acc <= 100)%Q.
Proof.
  intros Hn Hd.
  destruct (DataLoader_spec data n Hn) as (_ & _ & Hex).
  assert (Hpos : 0 < stream_examples (DataLoader data n)).
  { rewrite Hex. destruct data; [congruence|cbn [List.length]; lia]. }
  destruct (infer_ok_of_examples (DataLoader data n) net criterion Hpos)
    as [Ht [acc [obj [Hi Hb]]]].
  split; [congruence|]. eauto.
Qed.

(** [infer] on the validation stream [main] builds. *)
Lemma infer_over_DataLoader_aux (data : list (Input * Z)) (net : Net W)
    (criterion : criterion_t Tensor) :
  data <> [] ->
  exists acc obj net',
    infer env (DataLoader data batch_size) net criterion = Ok ((Fin acc, obj), net') /\
    (0 <= acc <= 100)%Q.
Proof.
  intro Hd.
  destruct (DataLoader_spec data batch_size ltac:(unfold batch_size; lia))
    as (_ & _ & Hex).
  assert (Hpos : 0 < stream_examples (DataLoader data batch_size)).
  { rewrite Hex. destruct data; [congruence|cbn [List.length]; lia]. }
  destruct (infer_ok_of_examples (DataLoader data batch_size) net criterion Hpos)
    as [_ [acc [obj [Hi Hb]]]]. eauto.
Qed.

(* ---------------------------------------------------------------- *)
(** *** Failures of the setup of [main] *)

(** X10: when the decoder of the chosen search space raises, [main] raises
    the same exception right after the call: no network is built and no
    dataset is loaded. *)
Theorem decode_failure_aborts_main (a : Args) (e : exn) :
  create_exp_dir env (save_pth a) = Ok tt ->
  (search_space a = "micro" /\ micro_decode env (genome a) = Err e) \/
  (search_space a = "macro" /\ macro_decode env (genome a) = Err e) ->
  main env a = ([EvCreateExpDir (save_pth a); EvDecode (search_space a)], Err e).
Proof.
  intros Hdir [[Hs Hd]|[Hs Hd]]; unfold main, build_model;
    rewrite Hdir, Hs; cbn [String.eqb Ascii.eqb Bool.eqb call mbind];
    rewrite Hd; reflexivity.
Qed.

(** X11: when the genome decodes but the network constructor raises,
    [main] raises the same exception before any dataset is loaded. *)
Theorem build_failure_aborts_main (a : Args) (genotype : Genotype) (e : exn) :
  create_exp_dir env (save_pth a) = Ok tt ->
  (search_space a = "micro" /\ micro_decode env (genome a) = Ok genotype /\
   NetworkCIFAR env (init_channels a) CIFAR_CLASSES (layers a) (auxiliary a) genotype
     = Err e) \/
  (search_space a = "macro" /\ macro_decode env (genome a) = Ok genotype /\
   EvoNetwork env genotype
     [ (3, init_channels a); (init_channels a, 2 * init_channels a);
       (2 * init_channels a, 4 * init_channels a) ] CIFAR_CLASSES (32, 32)
     = Err e) ->
  main env a
    = ([EvCreateExpDir (save_pth a); EvDecode (search_space a);
        EvBuild (search_space a)], Err e).
Proof.
  intros Hdir [(Hs & Hd & Hb)|(Hs & Hd & Hb)]; unfold main, build_model;
    rewrite Hdir, Hs; cbn [String.eqb Ascii.eqb Bool.eqb call mbind];
    rewrite Hd; cbn [call mbind]; rewrite Hb; reflexivity.
Qed.

(** X12: when the network is built but the training set cannot be loaded,
    [main] raises that exception; the validation set is not loaded. *)
Theorem training_set_failure_aborts_main
    (a : Args) (trb : list event) (genotype : Genotype) (w : W) (e : exn) :
  create_exp_dir env (save_pth a) = Ok tt ->
  build_model env a = (trb, Ok (genotype, w)) ->
  CIFAR10 env data_root true (cutout a) = Err e ->
  main env a = (EvCreateExpDir (save_pth a) :: trb ++ [EvLoadData true], Err e).
Proof.
  intros Hdir Hb Htr. unfold main.
  rewrite Hdir, Hb. cbn [call mbind lift fdiv of_int Qsign Qnum app].
  rewrite Htr. cbn [call mbind app]. reflexivity.
Qed.

(* ---------------------------------------------------------------- *)
(** *** [main] without epochs *)

Lemma range_nonpos (n : Z) : n <= 0 -> range n = [].
Proof.
  intro Hn. unfold range. replace (Z.to_nat n) with 0%nat by lia. reflexivity.
Qed.

(** X13: with [epochs <= 0] the loop does not run and [main] evaluates the
    network as it was built.  Once the setup and the writing of the summary
    succeed and the validation set is not empty, [main] returns the record
    whose 'valid_acc' is the accuracy [infer] returns for the new network
    (between 0 and 100) and whose 'params' is the sum of the parameter
    sizes divided by 1e6. *)
Theorem main_without_epochs_evaluates_new_network
    (a : Args) (trb trw : list event) (genotype : Genotype) (w : W)
    (train_data valid_data : list (Input * Z)) :
  epochs a <= 0 ->
  create_exp_dir env (save_pth a) = Ok tt ->
  build_model env a = (trb, Ok (genotype, w)) ->
  CIFAR10 env data_root true (cutout a) = Ok train_data ->
  CIFAR10 env data_root false false = Ok valid_data ->
  valid_data <> [] ->
  write_summary env (log_path a) = (trw, Ok tt) ->
  exists acc obj n_flops net',
    infer env (DataLoader valid_data batch_size) (new_module w) (CrossEntropyLoss env)
      = Ok ((Fin acc, obj), net') /\
    (0 <= acc <= 100)%Q /\
    main env a
      = (EvCreateExpDir (save_pth a) :: trb
           ++ [EvLoadData true; EvLoadData false] ++ trw,
         Ok [ ("valid_acc", Fin acc);
              ("params",
               Fin (Qred (inject_Z (fold_right Z.add 0 (param_sizes env w)) / 1000000)));
              ("flops", n_flops) ]).
Proof.
  intros He Hdir Hb Htr Hva Hne Hw.
  destruct (infer_over_DataLoader_aux valid_data (new_module w) (CrossEntropyLoss env) Hne)
    as [acc [obj [net' [Hi Hacc]]]].
  destruct (profile_flops_completes env net') as [n_flops Hp].
  exists acc, obj, n_flops, net'. split; [exact Hi|]. split; [exact Hacc|].
  unfold main. rewrite Hdir, Hb. cbn [call mbind lift fdiv of_int Qsign Qnum app].
  rewrite Htr, Hva. cbn [call mbind app].
  rewrite range_nonpos by exact He. cbn [epoch_loop lift mbind loop_init ls_model].
  rewrite Hi. cbn [mbind]. rewrite Hp. cbn [mbind]. rewrite Hw.
  cbn [mbind ret app]. rewrite ?app_nil_r, <- ?app_assoc. reflexivity.
Qed.

(** X14: with [epochs <= 0] and an empty validation set, [main] raises the
    ZeroDivisionError of [infer] after loading the data; the summary is not
    written. *)
Theorem main_empty_validation_set_raises
    (a : Args) (trb : list event) (genotype : Genotype) (w : W)
    (train_data : list (Input * Z)) :
  epochs a <= 0 ->
  create_exp_dir env (save_pth a) = Ok tt ->
  build_model env a = (trb, Ok (genotype, w)) ->
  CIFAR10 env data_root true (cutout a) = Ok train_data ->
  CIFAR10 env data_root false false = Ok [] ->
  main env a
    = (EvCreateExpDir (save_pth a) :: trb ++ [EvLoadData true; EvLoadData false],
       Err ZeroDivisionError).
Proof.
  intros He Hdir Hb Htr Hva. unfold main.
  rewrite Hdir, Hb. cbn [call mbind lift fdiv of_int Qsign Qnum app].
  rewrite Htr, Hva. cbn [call mbind app].
  rewrite range_nonpos by exact He. cbn [epoch_loop lift mbind].
  change (DataLoader (@nil (Input * Z)) batch_size) with (@nil (batch Input)).
  cbn [mbind app]. rewrite ?app_nil_r, <- ?app_assoc. reflexivity.
Qed.

(* ---------------------------------------------------------------- *)
(** *** [main] with at least one epoch *)

Lemma build_model_trace (a : Args) :
  Forall (fun ev => ~ summary_event ev) (fst (build_model env a)).
Proof.
  unfold build_model.
  destruct (search_space a =? "micro")%string.
  - destruct (micro_decode env (genome a)) as [g|e]; cbn [call mbind fst];
      [|repeat constructor; cbn; auto].
    match goal with
    | |- context [NetworkCIFAR env ?c ?n ?l ?x ?g] =>
        destruct (NetworkCIFAR env c n l x g)
    end; cbn [call mbind ret app fst]; repeat constructor; cbn; auto.
  - destruct (search_space a =? "macro")%string.
    + destruct (macro_decode env (genome a)) as [g|e]; cbn [call mbind fst];
        [|repeat constructor; cbn; auto].
      match goal with
      | |- context [EvoNetwork env ?g ?c ?n ?d] => destruct (EvoNetwork env g c n d)
      end; cbn [call mbind ret app fst]; repeat constructor; cbn; auto.
    + cbn. constructor.
Qed.

(** X15: with [epochs >= 1], whatever the search space and the
    collaborators do, [main] ends with an exception: it returns no record,
    and it neither opens nor writes the summary file. *)
Theorem main_with_epochs_never_returns (a : Args) :
  1 <= epochs a ->
  exists tr e,
    main env a = (tr, Err e) /\
    Forall (fun ev => ~ summary_event ev) tr.
Proof.
  intro He. unfold main.
  destruct (create_exp_dir env (save_pth a)) as [[]|e0]; cbn [call mbind];
    [|do 2 eexists; split; [reflexivity|repeat constructor; cbn; auto]].
  pose proof (build_model_trace a) as Hb.
  destruct (build_model env a) as [trb [[genotype w]|e]]; cbn [fst] in Hb; cbn [mbind].
  2:{ do 2 eexists. split; [reflexivity|]. cbn [app].
      constructor; [cbn; auto|exact Hb]. }
  cbn [lift mbind fdiv of_int Qsign Qnum app].
  destruct (CIFAR10 env data_root true (cutout a)) as [train_data|e]; cbn [call mbind].
  2:{ do 2 eexists. split; [reflexivity|]. cbn [app].
      constructor; [cbn; auto|]. apply Forall_app. split; [exact Hb|].
      repeat constructor; cbn; auto. }
  destruct (CIFAR10 env data_root false false) as [valid_data|e]; cbn [call mbind].
  2:{ do 2 eexists. split; [reflexivity|]. cbn [app].
      constructor; [cbn; auto|]. rewrite ?app_nil_r.
      repeat (apply Forall_app; split); try exact Hb; repeat constructor; cbn; auto. }
  rewrite epoch_loop_raises by exact He. cbn [lift mbind].
  do 2 eexists. split; [reflexivity|]. cbn [app].
  constructor; [cbn; auto|]. rewrite ?app_nil_r.
  repeat (apply Forall_app; split); try exact Hb; repeat constructor; cbn; auto.
Qed.

(* ---------------------------------------------------------------- *)
(** *** The summary file *)

Lemma write_lines_stops (k : nat) (fk : string) (e : exn) :
  nth_error summary_fields k = Some fk ->
  (forall f, In f (firstn k summary_fields) -> file_write env f = Ok tt) ->
  file_write env fk = Err e ->
  write_lines env = (map EvWrite (firstn (S k) summary_fields), Err e).
Proof.
  intros Hk Hok Hfail. unfold write_lines, summary_fields in *.
  do 5 (destruct k as [|k];
        [ cbn [nth_error] in Hk; inversion Hk; subst fk; clear Hk;
          cbn [firstn In] in Hok;
          repeat match goal with
                 | |- context [file_write env ?f] =>
                     first [ rewrite Hfail
                           | rewrite (Hok f) by (cbn; tauto) ]
                 end;
          reflexivity
        | ]).
  cbn [nth_error] in Hk. destruct k; discriminate.
Qed.

(** X16: once the summary file is open, the lines are written in the order
    Genome, Architecture, param size, flops, valid_acc up to the first
    write that raises and no further; the file is then closed, and
    [write_summary] raises the exception of that write, or the exception
    of the close when the close raises too. *)
Theorem write_summary_stops_at_first_failure
    (path : string) (k : nat) (fk : string) (e : exn) :
  open_w env path = Ok tt ->
  nth_error summary_fields k = Some fk ->
  (forall f, In f (firstn k summary_fields) -> file_write env f = Ok tt) ->
  file_write env fk = Err e ->
  write_summary env path
    = (EvOpen path :: map EvWrite (firstn (S k) summary_fields) ++ [EvClose path],
       match file_close env path with
       | Ok _ => Err e
       | Err e' => Err e'
       end).
Proof.
  intros Hopen Hk Hok Hfail. unfold write_summary.
  rewrite Hopen. cbn [call mbind]. unfold with_exit.
  rewrite (write_lines_stops k fk e Hk Hok Hfail). cbn [call app].
  reflexivity.
Qed.

(* ---------------------------------------------------------------- *)
(** *** The auxiliary loss *)

(** X18: 'auxiliary_weight' is read only when 'auxiliary' is true.  Two
    [params] dictionaries in which 'auxiliary' is false and which agree on
    'grad_clip' and 'log_interval' make [train] behave the same, whatever
    they hold, or do not hold, under 'auxiliary_weight'. *)
Theorem train_without_auxiliary_ignores_weight
    (train_queue : list (batch Input)) (net : Net W) (criterion : criterion_t Tensor)
    (optimizer : Optimizer O) (p1 p2 : dict) (aux1 aux2 : pyvalue) (device : string) :
  dict_get p1 "auxiliary" = Ok aux1 -> truthy aux1 = false ->
  dict_get p2 "auxiliary" = Ok aux2 -> truthy aux2 = false ->
  dict_get p1 "grad_clip" = dict_get p2 "grad_clip" ->
  dict_get p1 "log_interval" = dict_get p2 "log_interval" ->
  train env train_queue net criterion optimizer p1 device
    = train env train_queue net criterion optimizer p2 device.
Proof.
  intros H1 T1 H2 T2 Hg Hl.
  assert (Hstep : forall (b : batch Input) step (s : train_state W O Sc),
             train_batch env criterion p1 step b s
               = train_batch env criterion p2 step b s).
  { intros [inputs targets] step s. unfold train_batch.
    destruct (call_net env (ts_net s) inputs) as [[outputs outputs_aux] net1].
    rewrite H1, H2, Hg, Hl. cbn [bind]. rewrite T1, T2. reflexivity. }
  unfold train.
  assert (Hloop : forall step (s : train_state W O Sc),
             train_loop env criterion p1 step train_queue s
               = train_loop env criterion p2 step train_queue s).
  { induction train_queue as [|b q IH]; intros step s; [reflexivity|].
    cbn [train_loop]. rewrite Hstep.
    destruct (train_batch env criterion p2 step b s); cbn [bind]; [apply IH|reflexivity]. }
  rewrite Hloop. reflexivity.
Qed.

End HarnessMore.

(* ================================================================== *)
(** ** The further statements at concrete inputs *)

(** X1 on one epoch over the three training examples. *)
Lemma train_leaves_schedule_and_droprate_witness :
  training (mkNet 2 true (Some (Fin 0)) false false 0 0) = true /\
  droprate (mkNet 2 true (Some (Fin 0)) false false 0 0)
    = droprate (mkNet 0 false (Some (Fin 0)) false false 0 0) /\
  flops_methods (mkNet 2 true (Some (Fin 0)) false false 0 0)
    = flops_methods (mkNet 0 false (Some (Fin 0)) false false 0 0) /\
  flops_hooks (mkNet 2 true (Some (Fin 0)) false false 0 0)
    = flops_hooks (mkNet 0 false (Some (Fin 0)) false false 0 0) /\
  lr_index (mkOptimizer tt 1) = lr_index (mkOptimizer tt 1).
Proof.
  apply (train_leaves_schedule_and_droprate (Toy.env true) Toy.queue
           (mkNet 0 false (Some (Fin 0)) false false 0 0)
           (mkNet 2 true (Some (Fin 0)) false false 0 0)
           Toy.loss (mkOptimizer tt 1) (mkOptimizer tt 1) Toy.params "cuda"
           (Fin 100, Fin 0)).
  vm_compute. reflexivity.
Defined.

(** X2 on the same call. *)
Lemma train_accuracy_in_range_witness :
  exists s acc obj st,
    train_loop (Toy.env true) Toy.loss Toy.params 0 Toy.queue
               (mkTrainState (set_training (new_module 0) true) (mkOptimizer tt 0)
                             (GradScaler (Toy.env true)) (of_int 0) 0 0) = Ok s /\
    ts_total s = stream_examples Toy.queue /\
    train (Toy.env true) Toy.queue (new_module 0) Toy.loss (mkOptimizer tt 0)
          Toy.params "cuda" = Ok ((Fin acc, obj), st) /\
    (0 <= acc <= 100)%Q.
Proof.
  apply (train_accuracy_in_range (Toy.env true)).
  - reflexivity.
  - vm_compute. discriminate.
  - vm_compute. repeat constructor; discriminate.
Defined.

(** X3: reporting every 50 steps or at every step. *)
Lemma train_report_interval_irrelevant_witness :
  train (Toy.env true) Toy.queue (new_module 0) Toy.loss (mkOptimizer tt 0)
        Toy.params "cuda"
    = train (Toy.env true) Toy.queue (new_module 0) Toy.loss (mkOptimizer tt 0)
            Toy.params_every_step "cuda".
Proof.
  apply (train_report_interval_irrelevant (Toy.env true) Toy.queue (new_module 0)
           Toy.loss (mkOptimizer tt 0) Toy.params Toy.params_every_step
           (VInt 50) (VInt 1) "cuda").
  - repeat split.
  - reflexivity.
  - reflexivity.
  - reflexivity.
  - reflexivity.
  - vm_compute. repeat constructor; discriminate.
Defined.

(** X5 with the dictionary of the scenario's call. *)
Lemma train_with_main_params_raises_KeyError_witness :
  train (Toy.env true) Toy.queue (new_module 0) Toy.loss (mkOptimizer tt 0)
        (train_params (Toy.args 1 "micro")) "cuda"
    = Err (KeyError "log_interval").
Proof.
  apply (train_with_main_params_raises_KeyError (Toy.env true)).
  vm_compute. discriminate.
Defined.

(** X6 with [log_interval = 0]. *)
Lemma train_zero_log_interval_raises_witness :
  train (Toy.env true) Toy.queue (new_module 0) Toy.loss (mkOptimizer tt 0)
        Toy.params_zero_interval "cuda"
    = Err ZeroDivisionError.
Proof.
  apply (train_zero_log_interval_raises (Toy.env true) Toy.queue (new_module 0)
           Toy.loss (mkOptimizer tt 0) Toy.params_zero_interval (VInt 0) "cuda").
  - reflexivity.
  - reflexivity.
  - reflexivity.
  - vm_compute. discriminate.
Defined.

(** X7 with 'auxiliary' true and no weight. *)
Lemma train_auxiliary_without_weight_raises_witness :
  train (Toy.env true) Toy.queue (new_module 0) Toy.loss (mkOptimizer tt 0)
        Toy.params_aux_no_weight "cuda"
    = Err (KeyError "auxiliary_weight").
Proof.
  apply (train_auxiliary_without_weight_raises (Toy.env true) Toy.queue (new_module 0)
           Toy.loss (mkOptimizer tt 0) Toy.params_aux_no_weight (VBool true) "cuda").
  - reflexivity.
  - reflexivity.
  - reflexivity.
  - vm_compute. discriminate.
Defined.

(** X8 on the validation stream, from a network in training mode. *)
Lemma infer_leaves_network_in_eval_mode_witness :
  training (mkNet 0 false (Some (Fin 0)) false false 0 0) = false /\
  droprate (mkNet 0 false (Some (Fin 0)) false false 0 0)
    = droprate (mkNet 0 true (Some (Fin 0)) false false 0 0) /\
  flops_methods (mkNet 0 false (Some (Fin 0)) false false 0 0)
    = flops_methods (mkNet 0 true (Some (Fin 0)) false false 0 0) /\
  flops_hooks (mkNet 0 false (Some (Fin 0)) false false 0 0)
    = flops_hooks (mkNet 0 true (Some (Fin 0)) false false 0 0) /\
  (flops_hooks (mkNet 0 true (Some (Fin 0)) false false 0 0) = false ->
   flops_sum (mkNet 0 false (Some (Fin 0)) false false 0 0)
     = flops_sum (mkNet 0 true (Some (Fin 0)) false false 0 0) /\
   batch_counter (mkNet 0 false (Some (Fin 0)) false false 0 0)
     = batch_counter (mkNet 0 true (Some (Fin 0)) false false 0 0)).
Proof.
  apply (infer_leaves_network_in_eval_mode (Toy.env true) Toy.valid_queue
           (mkNet 0 true (Some (Fin 0)) false false 0 0)
           (mkNet 0 false (Some (Fin 0)) false false 0 0)
           Toy.loss (Fin (200 # 3), Fin (1 # 3))).
  vm_compute. reflexivity.
Defined.

(** X9 on the three validation examples, in batches of two. *)
Lemma infer_over_DataLoader_witness :
  is_total (infer_loop (Toy.env true) Toy.loss (DataLoader (Toy.dataset false) 2)
                       (new_module 0))
    = Z.of_nat (List.length (Toy.dataset false)) /\
  exists acc obj net',
    infer (Toy.env true) (DataLoader (Toy.dataset false) 2) (new_module 0) Toy.loss
      = Ok ((Fin acc, obj), net') /\
    (0 <= acc <= 100)%Q.
Proof.
  apply (infer_over_DataLoader (Toy.env true)).
  - lia.
  - vm_compute. discriminate.
Defined.

(** X10 with a decoder that rejects the genome. *)
Lemma decode_failure_aborts_main_witness :
  main (Toy.env_setup false true true (Toy.dataset false)) (Toy.args 1 "micro")
    = ([EvCreateExpDir "search/Design_1"; EvDecode "micro"],
       Err (mkExn "ValueError" "genome")).
Proof.
  apply (decode_failure_aborts_main
           (Toy.env_setup false true true (Toy.dataset false)) (Toy.args 1 "micro")).
  - reflexivity.
  - left. split; reflexivity.
Defined.

(** X11 with a constructor that raises, macro search space. *)
Lemma build_failure_aborts_main_witness :
  main (Toy.env_setup true false true (Toy.dataset false)) (Toy.args 1 "macro")
    = ([EvCreateExpDir "search/Design_1"; EvDecode "macro"; EvBuild "macro"],
       Err (mkExn "RuntimeError" "network")).
Proof.
  apply (build_failure_aborts_main
           (Toy.env_setup true false true (Toy.dataset false)) (Toy.args 1 "macro")
           Toy.micro_genome).
  - reflexivity.
  - right. repeat split; reflexivity.
Defined.

(** X12 with a training set that cannot be loaded. *)
Lemma training_set_failure_aborts_main_witness :
  main (Toy.env_setup true true false (Toy.dataset false)) (Toy.args 1 "micro")
    = ([EvCreateExpDir "search/Design_1"; EvDecode "micro"; EvBuild "micro";
        EvLoadData true],
       Err (OSError "data")).
Proof.
  apply (training_set_failure_aborts_main
           (Toy.env_setup true true false (Toy.dataset false)) (Toy.args 1 "micro")
           [EvDecode "micro"; EvBuild "micro"] Toy.micro_genome 0).
  - reflexivity.
  - reflexivity.
  - reflexivity.
Defined.

(** X13 on the run with [epochs = 0]. *)
Lemma main_without_epochs_evaluates_new_network_witness :
  exists acc obj n_flops net',
    infer (Toy.env true) (DataLoader (Toy.dataset false) batch_size) (new_module 0)
          (CrossEntropyLoss (Toy.env true))
      = Ok ((Fin acc, obj), net') /\
    (0 <= acc <= 100)%Q /\
    main (Toy.env true) (Toy.args 0 "micro")
      = (EvCreateExpDir "search/Design_1" :: [EvDecode "micro"; EvBuild "micro"]
           ++ [EvLoadData true; EvLoadData false]
           ++ summary_trace "search/Design_1/log.txt",
         Ok [ ("valid_acc", Fin acc);
              ("params", Fin (Qred (inject_Z (fold_right Z.add 0 [432; 16]) / 1000000)));
              ("flops", n_flops) ]).
Proof.
  apply (main_without_epochs_evaluates_new_network (Toy.env true) (Toy.args 0 "micro")
           [EvDecode "micro"; EvBuild "micro"]
           (summary_trace "search/Design_1/log.txt")
           Toy.micro_genome 0 (Toy.dataset true) (Toy.dataset false)).
  - cbn. lia.
  - reflexivity.
  - reflexivity.
  - reflexivity.
  - reflexivity.
  - vm_compute. discriminate.
  - reflexivity.
Defined.

(** X14 with an empty validation set. *)
Lemma main_empty_validation_set_raises_witness :
  main (Toy.env_setup true true true []) (Toy.args 0 "micro")
    = ([EvCreateExpDir "search/Design_1"; EvDecode "micro"; EvBuild "micro";
        EvLoadData true; EvLoadData false],
       Err ZeroDivisionError).
Proof.
  apply (main_empty_validation_set_raises (Toy.env_setup true true true [])
           (Toy.args 0 "micro") [EvDecode "micro"; EvBuild "micro"]
           Toy.micro_genome 0 (Toy.dataset true)).
  - cbn. lia.
  - reflexivity.
  - reflexivity.
  - reflexivity.
  - reflexivity.
Defined.

(** X15 with the 20 epochs of the file's own call of [main]. *)
Lemma main_with_epochs_never_returns_witness :
  exists tr e,
    main (Toy.env true) (Toy.args 20 "micro") = (tr, Err e) /\
    Forall (fun ev => ~ summary_event ev) tr.
Proof.
  apply (main_with_epochs_never_returns (Toy.env true) (Toy.args 20 "micro")).
  cbn. lia.
Defined.

(** X16 with a write of the 'flops' line that fails. *)
Lemma write_summary_stops_at_first_failure_witness :
  write_summary (Toy.env_summary "flops") "search/Design_1/log.txt"
    = ([EvOpen "search/Design_1/log.txt"; EvWrite "Genome"; EvWrite "Architecture";
        EvWrite "param size"; EvWrite "flops"; EvClose "search/Design_1/log.txt"],
       Err (OSError "flops")).
Proof.
  apply (write_summary_stops_at_first_failure (Toy.env_summary "flops")
           "search/Design_1/log.txt" 3 "flops" (OSError "flops")).
  - reflexivity.
  - reflexivity.
  - intros f [<-|[<-|[<-|[]]]]; reflexivity.
  - reflexivity.
Defined.

(** X18: with and without a weight. *)
Lemma train_without_auxiliary_ignores_weight_witness :
  train (Toy.env true) Toy.queue (new_module 0) Toy.loss (mkOptimizer tt 0)
        Toy.params "cuda"
    = train (Toy.env true) Toy.queue (new_module 0) Toy.loss (mkOptimizer tt 0)
            Toy.params_no_weight "cuda".
Proof.
  apply (train_without_auxiliary_ignores_weight (Toy.env true) Toy.queue (new_module 0)
           Toy.loss (mkOptimizer tt 0) Toy.params Toy.params_no_weight
           (VBool false) (VBool false) "cuda"); reflexivity.
Defined.
